(** * quizgraph: the quiz schema module and its transition evaluator

    A shallow embedding of the two surviving revisions of the quiz types
    module ([src/lib/internal/types.ts] and its second revision),
    covering [validateQuiz] and [evaluateTransition].

    - JavaScript values are a tree type; objects (dates, arrays, records)
      carry the identity that [===] compares.
    - Numbers are IEEE 754 binary64 values, as specified by [spec_float].
    - Code that may throw or touch the heap runs in a small state and
      exception monad. *)

From Stdlib Require Import ZArith List Bool String Ascii.
From Stdlib.Floats Require Import SpecFloat.
From stdpp Require Import base option list gmap strings pretty.

Local Open Scope string_scope.
Set Warnings "-register-all".

(** ** JavaScript numbers *)

Definition number : Type := spec_float.

Definition NaN : number := S754_nan.
Definition Infinity : number := S754_infinity false.

(** The double nearest to an integer (exact below 2^53). *)
Definition number_of_Z (z : Z) : number := binary_normalize 53 1024 z 0 false.

(** [x < y] and [x > y] on numbers: false as soon as one side is NaN. *)
Definition number_lt (x y : number) : bool := SFltb x y.
Definition number_gt (x y : number) : bool := SFltb y x.

(** [x === y] on numbers: NaN differs from itself, [+0] equals [-0]. *)
Definition number_eq (x y : number) : bool := SFeqb x y.

Definition isNaN (x : number) : bool :=
  match x with S754_nan => true | _ => false end.

(** A number that is neither NaN nor an infinity. *)
Definition isFinite (x : number) : bool :=
  match x with S754_zero _ | S754_finite _ _ _ => true | _ => false end.

(** ** JavaScript values *)

(** Identity of a heap object: two object values are the same reference
    exactly when their identities agree. *)
Definition ref : Type := positive.

Inductive JsValue : Type :=
  | VUndefined
  | VNull
  | VBool (b : bool)
  | VNum (n : number)
  | VStr (s : string)
  | VDate (r : ref) (time : number)            (* time value; NaN for an invalid date *)
  | VArr (r : ref) (items : list JsValue)
  | VObj (r : ref) (props : list (string * JsValue)).

Definition typeof_number (v : JsValue) : bool :=
  match v with VNum _ => true | _ => false end.

Definition typeof_string (v : JsValue) : bool :=
  match v with VStr _ => true | _ => false end.

Definition typeof_boolean (v : JsValue) : bool :=
  match v with VBool _ => true | _ => false end.

Definition instanceof_Date (v : JsValue) : bool :=
  match v with VDate _ _ => true | _ => false end.

Definition Array_isArray (v : JsValue) : bool :=
  match v with VArr _ _ => true | _ => false end.

(** [a === b]: primitives by value, objects by identity. *)
Definition strict_equals (a b : JsValue) : bool :=
  match a, b with
  | VUndefined, VUndefined => true
  | VNull, VNull => true
  | VBool x, VBool y => Bool.eqb x y
  | VNum x, VNum y => number_eq x y
  | VStr x, VStr y => String.eqb x y
  | VDate r1 _, VDate r2 _ => Pos.eqb r1 r2
  | VArr r1 _, VArr r2 _ => Pos.eqb r1 r2
  | VObj r1 _, VObj r2 _ => Pos.eqb r1 r2
  | _, _ => false
  end.

(** SameValueZero, the comparison of [Array.prototype.includes]: as [===]
    except that NaN equals NaN. *)
Definition same_value_zero (a b : JsValue) : bool :=
  match a, b with
  | VNum x, VNum y => (isNaN x && isNaN y) || number_eq x y
  | _, _ => strict_equals a b
  end.

(** [input[key]] on an object. Arrays and dates hold none of the keys the
    schemas below ask for (no key is an index, [length] or a prototype
    method), so the read yields [undefined] there. *)
Fixpoint lookup_prop (key : string) (props : list (string * JsValue)) : JsValue :=
  match props with
  | [] => VUndefined
  | (k, v) :: rest => if String.eqb k key then v else lookup_prop key rest
  end.

Definition get_prop (input : JsValue) (key : string) : JsValue :=
  match input with
  | VObj _ props => lookup_prop key props
  | _ => VUndefined
  end.

(** ** Host primitives

    The conversions and the regular-expression engine of the JavaScript
    host. The evaluator only calls them; every result below holds for any
    host. *)
Class Host : Type := {
  (** StringToNumber: the numeric value of a string, NaN when it is not a
      numeric literal. *)
  StringToNumber : string -> number;
  (** Number::toString. *)
  NumberToString : number -> string;
  (** Date.prototype.toString of a time value. *)
  DateToString : number -> string;
  (** [new RegExp(source)]: [None] when the source is not a valid pattern
      (the constructor throws a SyntaxError), otherwise the matcher that
      [test] runs. *)
  RegExpCompile : string -> option (string -> bool)
}.

Section Conversions.
Context {host : Host}.

(** ToString. *)
Fixpoint ToString (v : JsValue) : string :=
  match v with
  | VUndefined => "undefined"
  | VNull => "null"
  | VBool true => "true"
  | VBool false => "false"
  | VNum n => NumberToString n
  | VStr s => s
  | VDate _ t => DateToString t
  | VArr _ items =>
      (* Array.prototype.join: undefined and null elements print empty *)
      (fix join (l : list JsValue) : string :=
         match l with
         | [] => ""
         | x :: l' =>
             let sx := match x with
                       | VUndefined | VNull => ""
                       | _ => ToString x
                       end in
             match l' with
             | [] => sx
             | _ :: _ => sx ++ "," ++ join l'
             end
         end) items
  | VObj _ _ => "[object Object]"
  end.

(** ToPrimitive with hint number: a date gives its time value, other
    objects their string form. *)
Definition ToPrimitive (v : JsValue) : JsValue :=
  match v with
  | VDate _ t => VNum t
  | VArr _ _ | VObj _ _ => VStr (ToString v)
  | _ => v
  end.

(** ToNumber, which is also what [Number(v)] returns. *)
Definition ToNumber (v : JsValue) : number :=
  match ToPrimitive v with
  | VUndefined => NaN
  | VNull => S754_zero false
  | VBool true => number_of_Z 1
  | VBool false => S754_zero false
  | VNum n => n
  | VStr s => StringToNumber s
  | _ => NaN
  end.

(** [a < b]: two strings compare by code units, anything else as numbers. *)
Definition js_lt (a b : JsValue) : bool :=
  match ToPrimitive a, ToPrimitive b with
  | VStr x, VStr y => String.ltb x y
  | pa, pb => number_lt (ToNumber pa) (ToNumber pb)
  end.

(** [a > b]. *)
Definition js_gt (a b : JsValue) : bool := js_lt b a.

End Conversions.

(** ** Exceptions and state *)

Inductive exn : Type :=
  | SyntaxError (source : string)     (* thrown by [new RegExp] *)
  | ValiError                         (* thrown by [v.parse] *)
  | TypeError                         (* a property read of null or undefined *)
  | UnknownQuestionType (type : JsValue).
                                      (* the Error of [getValueSchemaForQuestion] *)

Inductive outcome (A : Type) : Type :=
  | Returned (a : A)
  | Thrown (e : exn).
Arguments Returned {A} a.
Arguments Thrown {A} e.

(** A computation over a state [S] that returns or throws; the state
    reached when it throws is kept, as in JavaScript. *)
Definition M (S A : Type) : Type := S -> outcome A * S.

Definition ret {S A : Type} (a : A) : M S A := fun s => (Returned a, s).

Definition bind {S A B : Type} (m : M S A) (f : A -> M S B) : M S B :=
  fun s =>
    match m s with
    | (Returned a, s') => f a s'
    | (Thrown e, s') => (Thrown e, s')
    end.

Notation "x <- m ;; k" := (bind m (fun x => k))
  (at level 100, m at next level, right associativity).

Definition throw {S A : Type} (e : exn) : M S A := fun s => (Thrown e, s).

(** [try { m } catch (error) { handler error }]. *)
Definition try_catch {S A : Type} (m : M S A) (handler : exn -> M S A) : M S A :=
  fun s =>
    match m s with
    | (Returned a, s') => (Returned a, s')
    | (Thrown e, s') => handler e s'
    end.

(** [Array.prototype.every] and [Array.prototype.some] with a callback
    that may throw: both stop at the first element that decides. *)
Fixpoint every {S A : Type} (f : A -> M S bool) (l : list A) : M S bool :=
  match l with
  | [] => ret true
  | x :: l' => b <- f x ;; if b then every f l' else ret false
  end.

Fixpoint some {S A : Type} (f : A -> M S bool) (l : list A) : M S bool :=
  match l with
  | [] => ret false
  | x :: l' => b <- f x ;; if b then ret true else some f l'
  end.

(** ** Conditions, transitions and responses *)

Inductive ConditionOperatorEnum : Type :=
  | EQUALS | NOT_EQUALS | CONTAINS | NOT_CONTAINS
  | GREATER_THAN | LESS_THAN | BETWEEN | MATCHES.

Inductive CombinationTypeEnum : Type := AND | OR.

Module Condition.
Record t : Type := mk {
  questionId : string;
  operator : ConditionOperatorEnum;
  value : JsValue;
  additionalValue : JsValue          (* [VUndefined] when absent *)
}.
End Condition.

Module Transition.
Record t : Type := mk {
  conditions : list Condition.t;
  nextNodeId : string;
  combinationType : option CombinationTypeEnum   (* [None] when absent *)
}.
End Transition.

Module QuestionResponse.
Record t : Type := mk {
  questionId : string;
  value : JsValue;
  timestamp : JsValue;
  isValid : bool;
  validationErrors : option (list string)
}.
End QuestionResponse.

(** The part of the heap [evaluateTransition] can reach: the [responses]
    record it is handed, and the RegExp objects it allocates. *)
Record Heap : Type := mkHeap {
  responses : gmap string QuestionResponse.t;
  regexps : nat
}.

(** The names every ordinary object inherits from [Object.prototype]. *)
Definition Object_prototype_keys : list string :=
  ["constructor"; "__defineGetter__"; "__defineSetter__"; "hasOwnProperty";
   "__lookupGetter__"; "__lookupSetter__"; "isPrototypeOf"; "propertyIsEnumerable";
   "toString"; "valueOf"; "__proto__"; "toLocaleString"].

Definition inherited (key : string) : bool :=
  existsb (String.eqb key) Object_prototype_keys.

(** What a read of the [responses] record finds: a response stored under
    the key, or a member of [Object.prototype] (a method, or the prototype
    itself under [__proto__]), which is truthy and has no [value]. *)
Inductive member : Type :=
  | Own (response : QuestionResponse.t)
  | Inherited.

(** [response.value]. *)
Definition member_value (response : member) : JsValue :=
  match response with
  | Own response => QuestionResponse.value response
  | Inherited => VUndefined
  end.

(** [responses[questionId]], on a record that is an ordinary object: the
    own property when there is one, else what the prototype chain gives. *)
Definition read_response (questionId : string) : M Heap (option member) :=
  fun h =>
    (Returned match responses h !! questionId with
              | Some response => Some (Own response)
              | None => if inherited questionId then Some Inherited else None
              end, h).

Section RegExp.
Context {host : Host}.

(** [new RegExp(pattern)]: allocates the object, or throws on a pattern
    that does not compile. An undefined pattern is the empty source. *)
Definition new_RegExp (pattern : JsValue) : M Heap (string -> bool) :=
  fun h =>
    let source := match pattern with
                  | VUndefined => ""
                  | _ => ToString pattern
                  end in
    match RegExpCompile source with
    | Some test => (Returned test, mkHeap (responses h) (S (regexps h)))
    | None => (Thrown (SyntaxError source), h)
    end.

End RegExp.

(** ** valibot schemas

    A schema is read through what [v.parse] does with it: the input either
    conforms or raises issues. The output dataset (the input with defaults
    filled in) is not modelled; [validateQuiz] drops it. *)

Definition schema : Type := JsValue -> bool.

Definition v_string : schema := typeof_string.

(** [v.number()] refuses NaN and accepts the infinities. *)
Definition v_number : schema :=
  fun input => match input with VNum n => negb (isNaN n) | _ => false end.

Definition v_boolean : schema := typeof_boolean.

(** [v.date()] refuses an invalid date. *)
Definition v_date : schema :=
  fun input => match input with VDate _ t => negb (isNaN t) | _ => false end.

Definition v_null : schema :=
  fun input => match input with VNull => true | _ => false end.

Definition v_unknown : schema := fun _ => true.

Definition v_literal (literal : string) : schema :=
  fun input => strict_equals input (VStr literal).

(** [v.enum(E)] for a string enum: the input is one of its values. *)
Definition v_enum (options : list string) : schema :=
  fun input => existsb (fun o => same_value_zero (VStr o) input) options.

Definition v_union (options : list schema) : schema :=
  fun input => existsb (fun s => s input) options.

(** [v.optional(wrapped, default)]: an undefined input takes the default
    when there is one, and is accepted as it is otherwise. *)
Definition v_optional (wrapped : schema) (default : option JsValue) : schema :=
  fun input =>
    match input, default with
    | VUndefined, None => true
    | VUndefined, Some d => wrapped d
    | _, _ => wrapped input
    end.

(** [input && typeof input === 'object']. *)
Definition is_object (input : JsValue) : bool :=
  match input with
  | VDate _ _ | VArr _ _ | VObj _ _ => true
  | _ => false
  end.

(** [v.object(entries)]: every entry's schema runs on [input[key]]; keys
    the schema does not name are ignored. *)
Definition v_object (entries : list (string * schema)) : schema :=
  fun input =>
    is_object input
    && forallb (fun e => snd e (get_prop input (fst e))) entries.

Definition v_array (item : schema) : schema :=
  fun input =>
    match input with
    | VArr _ items => forallb item items
    | _ => false
    end.

(** The own enumerable entries [v.record] walks, the keys it skips
    ([__proto__], [prototype], [constructor]) left out. *)
Definition own_entries (input : JsValue) : list (string * JsValue) :=
  match input with
  | VObj _ props =>
      filter (fun e => negb (String.eqb (fst e) "__proto__"
                             || String.eqb (fst e) "prototype"
                             || String.eqb (fst e) "constructor")) props
  | VArr _ items => imap (fun i x => (pretty i, x)) items
  | _ => []
  end.

Definition v_record (key value : schema) : schema :=
  fun input =>
    is_object input
    && forallb (fun e => key (VStr (fst e)) && value (snd e)) (own_entries input).

(** [v.parse(schema, input)] throws a ValiError on an input with issues. *)
Definition v_parse {S : Type} (s : schema) (input : JsValue) : M S JsValue :=
  fun st => if s input then (Returned input, st) else (Thrown ValiError, st).

(** *** Schemas both revisions declare alike *)

Definition QuestionTypeEnum : list string :=
  ["text"; "number"; "select"; "multiSelect"; "checkbox"; "checkboxGroup";
   "date"; "rating"; "file"; "signature"].

Definition ConditionOperatorEnum_value (op : ConditionOperatorEnum) : string :=
  match op with
  | EQUALS => "equals"
  | NOT_EQUALS => "notEquals"
  | CONTAINS => "contains"
  | NOT_CONTAINS => "notContains"
  | GREATER_THAN => "greaterThan"
  | LESS_THAN => "lessThan"
  | BETWEEN => "between"
  | MATCHES => "matches"
  end.

Definition CombinationTypeEnum_value (c : CombinationTypeEnum) : string :=
  match c with AND => "AND" | OR => "OR" end.

Definition QuestionTypeEnumSchema : schema := v_enum QuestionTypeEnum.

Definition ConditionOperatorEnumSchema : schema :=
  v_enum (map ConditionOperatorEnum_value
            [EQUALS; NOT_EQUALS; CONTAINS; NOT_CONTAINS;
             GREATER_THAN; LESS_THAN; BETWEEN; MATCHES]).

Definition CombinationTypeEnumSchema : schema :=
  v_enum (map CombinationTypeEnum_value [AND; OR]).

Definition OptionSchema : schema :=
  v_object [("value", v_union [v_string; v_number]);
            ("label", v_string);
            ("disabled", v_optional v_boolean None)].

Definition TextValidationSchema : schema :=
  v_object [("minLength", v_optional v_number None);
            ("maxLength", v_optional v_number None);
            ("pattern", v_optional v_string None);
            ("patternError", v_optional v_string None)].

Definition NumberValidationSchema : schema :=
  v_object [("min", v_optional v_number None);
            ("max", v_optional v_number None);
            ("integer", v_optional v_boolean None);
            ("step", v_optional v_number None)].

Definition DateValidationSchema : schema :=
  v_object [("minDate", v_optional v_date None);
            ("maxDate", v_optional v_date None);
            ("disallowedDates", v_optional (v_array v_date) None)].

Definition FileValidationSchema : schema :=
  v_object [("maxSize", v_optional v_number None);
            ("allowedTypes", v_optional (v_array v_string) None)].

Definition MultiSelectValidationSchema : schema :=
  v_object [("minSelected", v_optional v_number None);
            ("maxSelected", v_optional v_number None)].

Definition CheckboxGroupValidationSchema : schema :=
  v_object [("minSelected", v_optional v_number None);
            ("maxSelected", v_optional v_number None)].

Definition SignatureValidationSchema : schema :=
  v_object [("minWidth", v_optional v_number None);
            ("maxWidth", v_optional v_number None);
            ("required", v_optional v_boolean None)].

Definition baseQuestionFields : list (string * schema) :=
  [("id", v_string);
   ("label", v_string);
   ("description", v_optional v_string None);
   ("required", v_optional v_boolean (Some (VBool false)))].

(** The console, as the list of what [console.error] was called with. *)
Definition Console : Type := list (string * exn).

Definition console_error (message : string) (error : exn) : M Console unit :=
  fun c => (Returned tt, app c [(message, error)]).

(** *** The quiz schema, over the two schemas the revisions declare
    differently *)

Section Quiz.
Variable RatingValidationSchema : schema.
Variable ConditionSchema : schema.

Definition QuestionSchema_of : schema :=
  v_union [
    (* Text question *)
    v_object (app baseQuestionFields
      [("type", v_literal "text");
       ("validation", v_optional TextValidationSchema None);
       ("placeholder", v_optional v_string None);
       ("defaultValue", v_optional v_string None)]);
    (* Number question *)
    v_object (app baseQuestionFields
      [("type", v_literal "number");
       ("validation", v_optional NumberValidationSchema None);
       ("placeholder", v_optional v_string None);
       ("defaultValue", v_optional v_number None)]);
    (* Select question *)
    v_object (app baseQuestionFields
      [("type", v_literal "select");
       ("options", v_array OptionSchema);
       ("defaultValue", v_optional v_string None);
       ("placeholder", v_optional v_string None)]);
    (* MultiSelect question *)
    v_object (app baseQuestionFields
      [("type", v_literal "multiSelect");
       ("options", v_array OptionSchema);
       ("validation", v_optional MultiSelectValidationSchema None);
       ("defaultValue", v_optional (v_array v_string) None);
       ("placeholder", v_optional v_string None)]);
    (* Checkbox question *)
    v_object (app baseQuestionFields
      [("type", v_literal "checkbox");
       ("defaultValue", v_optional v_boolean None)]);
    (* CheckboxGroup question *)
    v_object (app baseQuestionFields
      [("type", v_literal "checkboxGroup");
       ("options", v_array OptionSchema);
       ("validation", v_optional CheckboxGroupValidationSchema None);
       ("defaultValue", v_optional (v_array v_string) None)]);
    (* Date question *)
    v_object (app baseQuestionFields
      [("type", v_literal "date");
       ("validation", v_optional DateValidationSchema None);
       ("defaultValue", v_optional v_date None);
       ("placeholder", v_optional v_string None)]);
    (* Rating question *)
    v_object (app baseQuestionFields
      [("type", v_literal "rating");
       ("validation", v_optional RatingValidationSchema None);
       ("defaultValue", v_optional v_number None)]);
    (* File question *)
    v_object (app baseQuestionFields
      [("type", v_literal "file");
       ("validation", v_optional FileValidationSchema None);
       ("multiple", v_optional v_boolean (Some (VBool false)))]);
    (* Signature question *)
    v_object (app baseQuestionFields
      [("type", v_literal "signature");
       ("validation", v_optional SignatureValidationSchema None)])
  ].

Definition TransitionSchema_of : schema :=
  v_object [("conditions", v_array ConditionSchema);
            ("nextNodeId", v_string);
            ("combinationType",
             v_optional CombinationTypeEnumSchema
               (Some (VStr (CombinationTypeEnum_value AND))))].

Definition NodeSchema_of : schema :=
  v_object [("id", v_string);
            ("title", v_string);
            ("description", v_optional v_string None);
            ("questions", v_array QuestionSchema_of);
            ("transitions", v_array TransitionSchema_of);
            ("isStart", v_optional v_boolean None);
            ("isEnd", v_optional v_boolean None);
            ("metadata", v_optional (v_record v_string v_unknown) None)].

Definition QuizSchema_of : schema :=
  v_object [("id", v_string);
            ("title", v_string);
            ("description", v_optional v_string None);
            ("version", v_string);
            ("nodes", v_array NodeSchema_of);
            ("settings",
             v_optional
               (v_object [("allowBackTracking", v_optional v_boolean None);
                          ("showProgressBar", v_optional v_boolean None);
                          ("shuffleQuestions", v_optional v_boolean None);
                          ("theme", v_optional v_string None);
                          ("timeLimit", v_optional v_number None)])
               None);
            ("metadata", v_optional (v_record v_string v_unknown) None)].

(** [validateQuiz]: parse, and turn a thrown error into [false] after
    logging it. *)
Definition validateQuiz_of (quiz : JsValue) : M Console bool :=
  try_catch
    (_ <- v_parse QuizSchema_of quiz ;; ret true)
    (fun error =>
       _ <- console_error "Quiz validation failed:" error ;; ret false).

End Quiz.


(** ** Building a response *)

(** ToBoolean. *)
Definition truthy (v : JsValue) : bool :=
  match v with
  | VUndefined | VNull => false
  | VBool b => b
  | VNum n => negb (isNaN n || number_eq n (S754_zero false))
  | VStr s => negb (String.eqb s "")
  | VDate _ _ | VArr _ _ | VObj _ _ => true
  end.

(** What [createResponse] touches: the clock, and the identities of the
    objects it allocates. *)
Record Runtime : Type := mkRuntime {
  clock : number;          (* the time value [new Date()] reads *)
  next_ref : ref
}.

Definition fresh : M Runtime ref :=
  fun rt => (Returned (next_ref rt), mkRuntime (clock rt) (Pos.succ (next_ref rt))).

(** [new Date()]. *)
Definition new_Date : M Runtime JsValue :=
  r <- fresh ;; fun rt => (Returned (VDate r (clock rt)), rt).

(** [object.key] where the object may be anything: the read of a property
    of null or undefined throws a TypeError. *)
Definition read_prop {S : Type} (object : JsValue) (key : string) : M S JsValue :=
  match object with
  | VUndefined | VNull => throw TypeError
  | _ => ret (get_prop object key)
  end.

(** [createResponse], the same in both revisions. An argument left out is
    [VUndefined] and takes its default: [true], and a new empty array. *)
Definition createResponse (question value isValid validationErrors : JsValue)
    : M Runtime JsValue :=
  let isValid := match isValid with VUndefined => VBool true | _ => isValid end in
  validationErrors <- match validationErrors with
                      | VUndefined => r <- fresh ;; ret (VArr r [])
                      | _ => ret validationErrors
                      end ;;
  questionId <- read_prop question "id" ;;
  timestamp <- new_Date ;;
  r <- fresh ;;
  ret (VObj r [("questionId", questionId);
               ("value", value);
               ("timestamp", timestamp);
               ("isValid", isValid);
               ("validationErrors", validationErrors)]).

Definition is_primitive_value (v : JsValue) : bool :=
  typeof_string v || typeof_number v || typeof_boolean v.

(** ** Revision [src/lib/internal/types.ts]

    This revision also declares [QuizStateSchema] over a
    [QuestionResponseSchema] that it never defines; the two functions are
    modelled as they are written. *)

Module Internal.

(** [min] has no default in this revision. *)
Definition RatingValidationSchema : schema :=
  v_object [("min", v_optional v_number None);
            ("max", v_optional v_number (Some (VNum (number_of_Z 5))))].

Definition ConditionSchema : schema :=
  v_object [("questionId", v_string);
            ("operator", ConditionOperatorEnumSchema);
            ("value",
             v_union [v_string; v_number; v_boolean;
                      v_array (v_union [v_string; v_number; v_boolean])]);
            ("additionalValue", v_optional (v_union [v_string; v_number]) None)].

Definition QuestionSchema : schema := QuestionSchema_of RatingValidationSchema.
Definition TransitionSchema : schema := TransitionSchema_of ConditionSchema.
Definition NodeSchema : schema := NodeSchema_of RatingValidationSchema ConditionSchema.
Definition QuizSchema : schema := QuizSchema_of RatingValidationSchema ConditionSchema.

Definition validateQuiz (quiz : JsValue) : M Console bool :=
  validateQuiz_of RatingValidationSchema ConditionSchema quiz.

(** The types the revision declares. A response value is a [QuestionValue]:
    [string | number | boolean | string[] | Date | File | File[]]. *)
Definition is_response_value (v : JsValue) : bool :=
  match v with
  | VStr _ | VNum _ | VBool _ | VDate _ _ | VObj _ _ => true
  | VArr _ items =>
      forallb typeof_string items
      || forallb (fun x => match x with VObj _ _ => true | _ => false end) items
  | _ => false
  end.

(** [ConditionSchema.value]:
    [string | number | boolean | (string | number | boolean)[]]. *)
Definition is_condition_value (v : JsValue) : bool :=
  match v with
  | VArr _ items => forallb is_primitive_value items
  | _ => is_primitive_value v
  end.

(** [ConditionSchema.additionalValue]: [string | number], or absent. *)
Definition is_additional_value (v : JsValue) : bool :=
  match v with
  | VUndefined | VStr _ | VNum _ => true
  | _ => false
  end.

Definition well_typed (condition : Condition.t) : bool :=
  is_condition_value (Condition.value condition)
  && is_additional_value (Condition.additionalValue condition).

Section Evaluate.
Context {host : Host}.

Definition evaluateCondition (condition : Condition.t) : M Heap bool :=
  response <- read_response (Condition.questionId condition) ;;
  match response with
  | None => ret false                                   (* if (!response) return false *)
  | Some response =>
      let rv := member_value response in
      let cv := Condition.value condition in
      match Condition.operator condition with
      | EQUALS => ret (strict_equals rv cv)
      | NOT_EQUALS => ret (negb (strict_equals rv cv))
      | CONTAINS =>
          ret (match rv with
               | VArr _ items => existsb (fun x => same_value_zero x cv) items
               | _ => false
               end)
      | NOT_CONTAINS =>
          ret (match rv with
               | VArr _ items => negb (existsb (fun x => same_value_zero x cv) items)
               | _ => false
               end)
      | GREATER_THAN => ret (typeof_number rv && js_gt rv cv)
      | LESS_THAN => ret (typeof_number rv && js_lt rv cv)
      | BETWEEN =>
          (* condition.additionalValue ?? Infinity *)
          let upper := match Condition.additionalValue condition with
                       | VUndefined | VNull => VNum Infinity
                       | av => av
                       end in
          ret (typeof_number rv && js_gt rv cv && js_lt rv upper)
      | MATCHES =>
          match rv with
          | VStr s => re <- new_RegExp cv ;; ret (re s)
          | _ => ret false
          end
      end
  end.

Definition evaluateTransition (transition : Transition.t) : M Heap bool :=
  match Transition.combinationType transition with
  | Some OR => some evaluateCondition (Transition.conditions transition)
  | _ => every evaluateCondition (Transition.conditions transition)
  end.

End Evaluate.

(** [getValueSchemaForQuestion]: the schema of an answer, by the [type] of
    the question. What it throws is on the right: the TypeError of reading
    [question.type] off null or undefined, and on a type outside the ten
    its own Error, kept with the offending type. *)
Definition getValueSchemaForQuestion (question : JsValue) : schema + exn :=
  match question with
  | VUndefined | VNull => inr TypeError
  | _ =>
  let type := get_prop question "type" in
  if strict_equals type (VStr "text") then inl v_string
  else if strict_equals type (VStr "number") then inl v_number
  else if strict_equals type (VStr "select") then inl v_string
  else if strict_equals type (VStr "multiSelect") then inl (v_array v_string)
  else if strict_equals type (VStr "checkbox") then inl v_boolean
  else if strict_equals type (VStr "checkboxGroup") then inl (v_array v_string)
  else if strict_equals type (VStr "date") then inl v_date
  else if strict_equals type (VStr "rating") then inl v_number
  else if strict_equals type (VStr "file") then
    inl (if truthy (get_prop question "multiple") then v_array v_unknown else v_unknown)
  else if strict_equals type (VStr "signature") then inl v_string
  else inr (UnknownQuestionType type)
  end.

(** [createQuestionResponseSchema]. *)
Definition createQuestionResponseSchema (question : JsValue) : schema + exn :=
  match getValueSchemaForQuestion question with
  | inl value_schema =>
      inl (v_object [("questionId", v_string);
                     ("value", value_schema);
                     ("timestamp", v_date);
                     ("isValid", v_boolean);
                     ("validationErrors", v_optional (v_array v_string) None)])
  | inr error => inr error
  end.

(** The type guards, on a question that is not null or undefined (there
    the read of [question.type] throws a TypeError before any comparison;
    the declared type of the argument excludes both). *)
Definition isTextQuestion (question : JsValue) : bool :=
  strict_equals (get_prop question "type") (VStr "text").
Definition isNumberQuestion (question : JsValue) : bool :=
  strict_equals (get_prop question "type") (VStr "number").
Definition isSelectQuestion (question : JsValue) : bool :=
  strict_equals (get_prop question "type") (VStr "select").
Definition isMultiSelectQuestion (question : JsValue) : bool :=
  strict_equals (get_prop question "type") (VStr "multiSelect").
Definition isCheckboxQuestion (question : JsValue) : bool :=
  strict_equals (get_prop question "type") (VStr "checkbox").
Definition isCheckboxGroupQuestion (question : JsValue) : bool :=
  strict_equals (get_prop question "type") (VStr "checkboxGroup").
Definition isDateQuestion (question : JsValue) : bool :=
  strict_equals (get_prop question "type") (VStr "date").
Definition isRatingQuestion (question : JsValue) : bool :=
  strict_equals (get_prop question "type") (VStr "rating").
Definition isFileQuestion (question : JsValue) : bool :=
  strict_equals (get_prop question "type") (VStr "file").
Definition isSignatureQuestion (question : JsValue) : bool :=
  strict_equals (get_prop question "type") (VStr "signature").

Definition type_guards : list (JsValue -> bool) :=
  [isTextQuestion; isNumberQuestion; isSelectQuestion; isMultiSelectQuestion;
   isCheckboxQuestion; isCheckboxGroupQuestion; isDateQuestion; isRatingQuestion;
   isFileQuestion; isSignatureQuestion].

End Internal.

(** ** The second revision (values may be dates) *)

Module DateAware.

Definition RatingValidationSchema : schema :=
  v_object [("min", v_optional v_number (Some (VNum (number_of_Z 1))));
            ("max", v_optional v_number (Some (VNum (number_of_Z 5))))].

Definition QuestionResponseSchema : schema :=
  v_object [("questionId", v_string);
            ("value",
             v_union [v_string; v_number; v_boolean; v_date;
                      v_array (v_union [v_string; v_number; v_boolean; v_date]);
                      v_null]);
            ("timestamp", v_date);
            ("isValid", v_boolean);
            ("validationErrors", v_optional (v_array v_string) None)].

Definition ConditionSchema : schema :=
  v_object [("questionId", v_string);
            ("operator", ConditionOperatorEnumSchema);
            ("value",
             v_union [v_string; v_number; v_boolean; v_date;
                      v_array (v_union [v_string; v_number; v_boolean; v_date])]);
            ("additionalValue",
             v_optional (v_union [v_string; v_number; v_date]) None)].

Definition QuestionSchema : schema := QuestionSchema_of RatingValidationSchema.
Definition TransitionSchema : schema := TransitionSchema_of ConditionSchema.
Definition NodeSchema : schema := NodeSchema_of RatingValidationSchema ConditionSchema.
Definition QuizSchema : schema := QuizSchema_of RatingValidationSchema ConditionSchema.

Definition validateQuiz (quiz : JsValue) : M Console bool :=
  validateQuiz_of RatingValidationSchema ConditionSchema quiz.

Definition is_scalar_value (v : JsValue) : bool :=
  is_primitive_value v || instanceof_Date v.

(** [QuestionResponseSchema.value]: a string, number, boolean or date, an
    array of those, or null. *)
Definition is_response_value (v : JsValue) : bool :=
  match v with
  | VNull => true
  | VArr _ items => forallb is_scalar_value items
  | _ => is_scalar_value v
  end.

(** [ConditionSchema.value]: as a response value, null apart. *)
Definition is_condition_value (v : JsValue) : bool :=
  match v with
  | VArr _ items => forallb is_scalar_value items
  | _ => is_scalar_value v
  end.

(** [ConditionSchema.additionalValue]: [string | number | Date], or absent. *)
Definition is_additional_value (v : JsValue) : bool :=
  match v with
  | VUndefined | VStr _ | VNum _ | VDate _ _ => true
  | _ => false
  end.

Definition well_typed (condition : Condition.t) : bool :=
  is_condition_value (Condition.value condition)
  && is_additional_value (Condition.additionalValue condition).

(** [compareValues]: dates by time value, anything else by [===]. *)
Definition compareValues (a b : JsValue) : bool :=
  match a, b with
  | VDate _ ta, VDate _ tb => strict_equals (VNum ta) (VNum tb)   (* a.getTime() === b.getTime() *)
  | _, _ => strict_equals a b
  end.

Section Evaluate.
Context {host : Host}.

Definition evaluateCondition (condition : Condition.t) : M Heap bool :=
  response <- read_response (Condition.questionId condition) ;;
  match response with
  | None => ret false                                   (* if (!response) return false *)
  | Some response =>
      let rv := member_value response in
      let cv := Condition.value condition in
      let av := Condition.additionalValue condition in
      match Condition.operator condition with
      | EQUALS => ret (compareValues rv cv)
      | NOT_EQUALS => ret (negb (compareValues rv cv))
      | CONTAINS =>
          ret (match rv with
               | VArr _ items => existsb (fun x => compareValues x cv) items
               | _ => false
               end)
      | NOT_CONTAINS =>
          ret (match rv with
               | VArr _ items => negb (existsb (fun x => compareValues x cv) items)
               | _ => false
               end)
      | GREATER_THAN =>
          ret (if instanceof_Date rv && instanceof_Date cv
               then js_gt rv cv
               else js_gt (VNum (ToNumber rv)) (VNum (ToNumber cv)))
      | LESS_THAN =>
          ret (if instanceof_Date rv && instanceof_Date cv
               then js_lt rv cv
               else js_lt (VNum (ToNumber rv)) (VNum (ToNumber cv)))
      | BETWEEN =>
          if typeof_number cv && typeof_number av then
            ret (js_gt (VNum (ToNumber rv)) cv && js_lt (VNum (ToNumber rv)) av)
          else if instanceof_Date cv && instanceof_Date av then
            ret (instanceof_Date rv && js_gt rv cv && js_lt rv av)
          else ret false
      | MATCHES =>
          match rv with
          | VStr s => re <- new_RegExp cv ;; ret (re s)
          | _ => ret false
          end
      end
  end.

Definition evaluateTransition (transition : Transition.t) : M Heap bool :=
  match Transition.combinationType transition with
  | Some OR => some evaluateCondition (Transition.conditions transition)
  | _ => every evaluateCondition (Transition.conditions transition)
  end.

End Evaluate.

Definition QuizStateSchema : schema :=
  v_object [("quizId", v_string);
            ("currentNodeId", v_string);
            ("visitedNodes", v_array v_string);
            ("responses", v_record v_string QuestionResponseSchema);
            ("startTime", v_date);
            ("lastUpdated", v_date);
            ("completed", v_boolean);
            ("endNodeId", v_optional v_string None)].

End DateAware.

(** ** References between the nodes of a quiz *)

Definition items_of (v : JsValue) : list JsValue :=
  match v with VArr _ items => items | _ => [] end.

Definition string_of (v : JsValue) : option string :=
  match v with VStr s => Some s | _ => None end.

(** The ids of the nodes of a quiz. *)
Definition node_ids (quiz : JsValue) : list string :=
  omap (fun node => string_of (get_prop node "id")) (items_of (get_prop quiz "nodes")).

(** The [nextNodeId] of every transition of every node. *)
Definition nextNodeIds (quiz : JsValue) : list string :=
  flat_map
    (fun node =>
       omap (fun transition => string_of (get_prop transition "nextNodeId"))
         (items_of (get_prop node "transitions")))
    (items_of (get_prop quiz "nodes")).

(** Every [nextNodeId] is the id of a node of the quiz. *)
Definition references_resolve (quiz : JsValue) : bool :=
  forallb (fun target => existsb (String.eqb target) (node_ids quiz)) (nextNodeIds quiz).

(** Rewriting the property [key] of an object, where it is present. *)
Definition update_prop (key : string) (g : JsValue -> JsValue) (v : JsValue) : JsValue :=
  match v with
  | VObj r props =>
      VObj r (map (fun e => if String.eqb (fst e) key then (fst e, g (snd e)) else e) props)
  | _ => v
  end.

Definition map_items (g : JsValue -> JsValue) (v : JsValue) : JsValue :=
  match v with
  | VArr r items => VArr r (map g items)
  | _ => v
  end.

Definition map_string (f : string -> string) (v : JsValue) : JsValue :=
  match v with
  | VStr s => VStr (f s)
  | _ => v
  end.

(** The quiz with every transition's [nextNodeId] sent through [f], and
    nothing else changed. *)
Definition retarget_transition (f : string -> string) : JsValue -> JsValue :=
  update_prop "nextNodeId" (map_string f).

Definition retarget_node (f : string -> string) : JsValue -> JsValue :=
  update_prop "transitions" (map_items (retarget_transition f)).

Definition retarget (f : string -> string) : JsValue -> JsValue :=
  update_prop "nodes" (map_items (retarget_node f)).

(** A condition with its operator replaced. *)
Definition with_operator (op : ConditionOperatorEnum) (c : Condition.t) : Condition.t :=
  Condition.mk (Condition.questionId c) op (Condition.value c) (Condition.additionalValue c).

(** ** A host for the examples

    Decimal integer literals, integer number printing and literal patterns:
    enough to run the concrete cases below. *)

Definition digit_of (c : ascii) : option Z :=
  let n := Z.of_nat (nat_of_ascii c) in
  if (48 <=? n)%Z && (n <=? 57)%Z then Some (n - 48)%Z else None.

Fixpoint decimal_value (acc : Z) (s : string) : option Z :=
  match s with
  | EmptyString => Some acc
  | String c s' =>
      match digit_of c with
      | Some d => decimal_value (10 * acc + d) s'
      | None => None
      end
  end.

Definition integer_to_string (n : number) : string :=
  match n with
  | S754_nan => "NaN"
  | S754_infinity false => "Infinity"
  | S754_infinity true => "-Infinity"
  | S754_zero _ => "0"
  | S754_finite s m e =>
      (if s then "-" else "") ++ pretty (Z.shiftl (Zpos m) e)
  end.

Fixpoint contains (needle haystack : string) : bool :=
  String.prefix needle haystack
  || match haystack with
     | EmptyString => false
     | String _ rest => contains needle rest
     end.

Definition is_metacharacter (c : ascii) : bool :=
  existsb (Ascii.eqb c) (list_ascii_of_string "\^$.|?*+()[]{}").

Definition example_host : Host := {|
  StringToNumber s :=
    match decimal_value 0 s with Some z => number_of_Z z | None => NaN end;
  NumberToString := integer_to_string;
  DateToString _ := "Invalid Date";
  RegExpCompile source :=
    if existsb is_metacharacter (list_ascii_of_string source)
    then None
    else Some (contains source)
|}.

(** *** Sample data *)

Definition epoch : JsValue := VDate 1%positive (S754_zero false).

Definition answer (questionId : string) (value : JsValue) : QuestionResponse.t :=
  QuestionResponse.mk questionId value epoch true None.

Definition heap_with (questionId : string) (value : JsValue) : Heap :=
  mkHeap {[ questionId := answer questionId value ]} 0.

Definition empty_heap : Heap := mkHeap ∅ 0.

Definition sample_transition (nextNodeId : string) : JsValue :=
  VObj 30%positive [("conditions", VArr 31%positive []); ("nextNodeId", VStr nextNodeId)].

(** Nodes [A] (start) and [B] (end); the only transition leaves [A]. *)
Definition sample_quiz (nextNodeId : string) : JsValue :=
  VObj 10%positive
    [("id", VStr "quiz"); ("title", VStr "Sample"); ("version", VStr "1");
     ("nodes",
      VArr 11%positive
        [VObj 12%positive [("id", VStr "A"); ("title", VStr "First");
                  ("questions", VArr 13%positive []);
                  ("transitions", VArr 14%positive [sample_transition nextNodeId]);
                  ("isStart", VBool true)];
         VObj 20%positive [("id", VStr "B"); ("title", VStr "Last");
                  ("questions", VArr 21%positive []);
                  ("transitions", VArr 22%positive []);
                  ("isEnd", VBool true)]])].

(** *** Sample conditions *)

Definition older_than_18 : Condition.t :=
  Condition.mk "age" GREATER_THAN (VNum (number_of_Z 18)) VUndefined.

Definition above_18 : Condition.t :=
  Condition.mk "age" BETWEEN (VNum (number_of_Z 18)) VUndefined.

Definition between_18_and_65 : Condition.t :=
  Condition.mk "age" BETWEEN (VNum (number_of_Z 18)) (VNum (number_of_Z 65)).

Definition born_at_epoch : Condition.t :=
  Condition.mk "birth" EQUALS (VDate 2%positive (S754_zero false)) VUndefined.

(** ** Notions the properties are stated with *)

(** The comparison GREATER_THAN and LESS_THAN are documented to make: by
    time value when both sides are dates, by numeric coercion otherwise. *)
Definition date_or_numeric {host : Host} (rel : number -> number -> bool)
    (a b : JsValue) : bool :=
  match a, b with
  | VDate _ ta, VDate _ tb => rel ta tb
  | _, _ => rel (ToNumber a) (ToNumber b)
  end.

(** Equality of values as documented for EQUALS: two dates are equal when
    their time values are, and values of every other kind when they are
    the same value: primitives as [===] has them, arrays item by item and
    objects property by property, whichever objects carry them. *)
Fixpoint value_equal (a b : JsValue) : bool :=
  match a, b with
  | VDate _ ta, VDate _ tb => number_eq ta tb
  | VArr _ xs, VArr _ ys =>
      (fix items_equal (xs ys : list JsValue) : bool :=
         match xs, ys with
         | [], [] => true
         | x :: xs, y :: ys => value_equal x y && items_equal xs ys
         | _, _ => false
         end) xs ys
  | VObj _ ps, VObj _ qs =>
      (fix props_equal (ps qs : list (string * JsValue)) : bool :=
         match ps, qs with
         | [], [] => true
         | (k, x) :: ps, (l, y) :: qs =>
             String.eqb k l && value_equal x y && props_equal ps qs
         | _, _ => false
         end) ps qs
  | _, _ => strict_equals a b
  end.

(** Unfolds a condition's evaluation up to the response read. *)
Ltac step_condition :=
  unfold Internal.evaluateCondition, DateAware.evaluateCondition,
    bind, read_response, ret.

(** The same, at a key under which a response is stored. *)
Ltac step_condition_at Hsome :=
  step_condition; rewrite Hsome; cbn [member_value].

(** A computation whose outcome is a function of the responses alone and
    which hands them back unchanged. *)
Definition reads_only {A : Type} (m : M Heap A) : Prop :=
  forall h1 h2 : Heap,
    responses h1 = responses h2 ->
    fst (m h1) = fst (m h2) /\ responses (snd (m h1)) = responses h1.

(** Picks, out of a membership in a literal list of entries, the entry
    whose key matches. *)
Ltac pick_entry H :=
  cbn [In] in H;
  repeat (destruct H as [H|H]; [ first [discriminate H | injection H as <-] | ]);
  try contradiction.


(** ** Walking a quiz *)

(** The conditions of every transition of every node. *)
Definition conditions_of (quiz : JsValue) : list JsValue :=
  flat_map
    (fun node =>
       flat_map (fun transition => items_of (get_prop transition "conditions"))
         (items_of (get_prop node "transitions")))
    (items_of (get_prop quiz "nodes")).

Definition map_bool (g : bool -> bool) (v : JsValue) : JsValue :=
  match v with
  | VBool b => VBool (g b)
  | _ => v
  end.

(** The quiz with every node's [id] sent through [f] and its [isStart] and
    [isEnd] flags through [start] and [finish], and nothing else changed. *)
Definition relabel_node (f : string -> string) (start finish : bool -> bool)
    (node : JsValue) : JsValue :=
  update_prop "id" (map_string f)
    (update_prop "isStart" (map_bool start)
       (update_prop "isEnd" (map_bool finish) node)).

Definition relabel (f : string -> string) (start finish : bool -> bool) : JsValue -> JsValue :=
  update_prop "nodes" (map_items (relabel_node f start finish)).

(** The names [QuizSchema] gives to the properties of a quiz. *)
Definition quiz_keys : list string :=
  ["id"; "title"; "description"; "version"; "nodes"; "settings"; "metadata"].

(** The shape the engine relies on when it reads a quiz: the properties it
    reads are there, with the types it expects. *)
Definition is_optional_boolean (v : JsValue) : Prop :=
  v = VUndefined \/ exists b, v = VBool b.

Definition transition_shape (transition : JsValue) : Prop :=
  exists (target : string) (r : ref) (conditions : list JsValue),
    get_prop transition "nextNodeId" = VStr target
    /\ get_prop transition "conditions" = VArr r conditions
    /\ (get_prop transition "combinationType" = VUndefined
        \/ exists k, get_prop transition "combinationType"
                     = VStr (CombinationTypeEnum_value k)).

Definition node_shape (node : JsValue) : Prop :=
  exists (id title : string) (rq rt : ref) (questions transitions : list JsValue),
    get_prop node "id" = VStr id
    /\ get_prop node "title" = VStr title
    /\ get_prop node "questions" = VArr rq questions
    /\ get_prop node "transitions" = VArr rt transitions
    /\ is_optional_boolean (get_prop node "isStart")
    /\ is_optional_boolean (get_prop node "isEnd")
    /\ Forall transition_shape transitions.

Definition quiz_shape (quiz : JsValue) : Prop :=
  exists (id title version : string) (r : ref) (nodes : list JsValue),
    get_prop quiz "id" = VStr id
    /\ get_prop quiz "title" = VStr title
    /\ get_prop quiz "version" = VStr version
    /\ get_prop quiz "nodes" = VArr r nodes
    /\ Forall node_shape nodes.

(** *** More sample data *)

Definition two_answers : Heap :=
  mkHeap (<["name" := answer "name" (VStr "Ada")]>
            {["age" := answer "age" (VNum (number_of_Z 10))]}) 0.

Definition bad_pattern : Condition.t :=
  Condition.mk "name" MATCHES (VStr "(") VUndefined.

Definition likes_tea : Condition.t :=
  Condition.mk "drinks" CONTAINS (VStr "tea") VUndefined.

Definition born_in_1970 : Condition.t :=
  Condition.mk "birth" BETWEEN
    (VDate 3%positive (S754_zero false))
    (VDate 4%positive (number_of_Z 31536000000)).

(** A quiz whose first node leaves on the condition [age > 18]. *)
Definition age_condition : JsValue :=
  VObj 52%positive
    [("questionId", VStr "age"); ("operator", VStr "greaterThan");
     ("value", VNum (number_of_Z 18))].

Definition age_quiz : JsValue :=
  VObj 10%positive
    [("id", VStr "quiz"); ("title", VStr "Sample"); ("version", VStr "1");
     ("nodes",
      VArr 11%positive
        [VObj 12%positive
           [("id", VStr "A"); ("title", VStr "First");
            ("questions", VArr 13%positive []);
            ("transitions",
             VArr 14%positive
               [VObj 50%positive
                  [("conditions", VArr 51%positive [age_condition]);
                   ("nextNodeId", VStr "B")]]);
            ("isStart", VBool true)];
         VObj 20%positive
           [("id", VStr "B"); ("title", VStr "Last");
            ("questions", VArr 21%positive []);
            ("transitions", VArr 22%positive []);
            ("isEnd", VBool true)]])].

Definition name_question : JsValue :=
  VObj 40%positive [("id", VStr "name"); ("label", VStr "Name"); ("type", VStr "text")].

Definition file_question : JsValue :=
  VObj 41%positive [("id", VStr "cv"); ("label", VStr "CV"); ("type", VStr "file")].

Definition a_file : JsValue := VObj 42%positive [("name", VStr "cv.pdf")].

Definition at_noon : Runtime := mkRuntime (number_of_Z 43200000) 100%positive.

(** The answer [["tea"]] to a question on drinks, and a condition on an
    array with the same item that is another object. *)
Definition tea_only : JsValue := VArr 70%positive [VStr "tea"].

Definition drinks_tea_only : Condition.t :=
  Condition.mk "drinks" EQUALS (VArr 71%positive [VStr "tea"]) VUndefined.

(** Conditions on keys that every object inherits. *)
Definition not_toString : Condition.t :=
  Condition.mk "toString" NOT_EQUALS (VStr "x") VUndefined.

Definition on_constructor : Condition.t :=
  Condition.mk "constructor" EQUALS (VStr "yes") VUndefined.

(** * Properties *)

(** ** Comparison of numbers *)

Lemma compare_cont_Eq_swap (m1 m2 : positive) :
  Pos.compare_cont Eq m1 m2 = Eq -> Pos.compare_cont Eq m2 m1 = Eq.
Proof.
  change (Pos.compare_cont Eq m1 m2) with (Pos.compare m1 m2).
  change (Pos.compare_cont Eq m2 m1) with (Pos.compare m2 m1).
  intros E. apply Pos.compare_eq in E. subst. apply Pos.compare_refl.
Qed.

Lemma SFcompare_Eq_swap (x y : number) :
  SFcompare x y = Some Eq -> SFcompare y x = Some Eq.
Proof.
  destruct x as [sx|sx| |sx mx ex], y as [sy|sy| |sy my ey];
    try destruct sx; try destruct sy; simpl; try congruence.
  - destruct (Z.compare_spec ex ey) as [->|L|L]; try discriminate.
    rewrite Z.compare_refl.
    destruct (Pos.compare_cont Eq mx my) eqn:E; try discriminate.
    intros _. now rewrite (compare_cont_Eq_swap _ _ E).
  - destruct (Z.compare_spec ex ey) as [->|L|L]; try discriminate.
    rewrite Z.compare_refl.
    destruct (Pos.compare_cont Eq mx my) eqn:E; try discriminate.
    intros _. now rewrite (compare_cont_Eq_swap _ _ E).
Qed.

(** Equal numbers are not ordered, either way. *)
Lemma number_eq_not_lt (x y : number) :
  number_eq x y = true -> number_lt x y = false /\ number_lt y x = false.
Proof.
  unfold number_eq, number_lt, SFeqb, SFltb. intros E.
  destruct (SFcompare x y) as [[]|] eqn:C; try discriminate.
  rewrite (SFcompare_Eq_swap _ _ C). now split.
Qed.

(** Every finite number lies below [Infinity]. *)
Lemma finite_lt_Infinity (r : number) :
  isFinite r = true -> number_lt r Infinity = true.
Proof. destruct r as [s|s| |s m e]; simpl; try discriminate; reflexivity. Qed.

Lemma Infinity_not_lt_Infinity : number_lt Infinity Infinity = false.
Proof. reflexivity. Qed.

(** ** Conversions *)

Section ConversionFacts.
Context {host : Host}.

Lemma ToPrimitive_idempotent (v : JsValue) :
  ToPrimitive (ToPrimitive v) = ToPrimitive v.
Proof. destruct v; reflexivity. Qed.

Lemma ToNumber_ToPrimitive (v : JsValue) : ToNumber (ToPrimitive v) = ToNumber v.
Proof. unfold ToNumber. now rewrite ToPrimitive_idempotent. Qed.

Lemma ToNumber_VNum (n : number) : ToNumber (VNum n) = n.
Proof. reflexivity. Qed.

Lemma ToNumber_VDate (r : ref) (t : number) : ToNumber (VDate r t) = t.
Proof. reflexivity. Qed.

(** Against a number, [<] and [>] compare numerically whatever the other
    side is. *)
Lemma js_lt_number_l (n : number) (b : JsValue) :
  js_lt (VNum n) b = number_lt n (ToNumber b).
Proof.
  unfold js_lt. cbn [ToPrimitive]. rewrite ToNumber_VNum.
  destruct (ToPrimitive b) eqn:E; rewrite <- (ToNumber_ToPrimitive b), E; reflexivity.
Qed.

Lemma js_lt_number_r (a : JsValue) (n : number) :
  js_lt a (VNum n) = number_lt (ToNumber a) n.
Proof.
  unfold js_lt. cbn [ToPrimitive]. rewrite ToNumber_VNum.
  destruct (ToPrimitive a) eqn:E; rewrite <- (ToNumber_ToPrimitive a), E; reflexivity.
Qed.

Lemma js_gt_number_l (n : number) (b : JsValue) :
  js_gt (VNum n) b = number_gt n (ToNumber b).
Proof. apply js_lt_number_r. Qed.

(** Two dates compare by their time values. *)
Lemma js_lt_dates (r1 r2 : ref) (t1 t2 : number) :
  js_lt (VDate r1 t1) (VDate r2 t2) = number_lt t1 t2.
Proof. reflexivity. Qed.

End ConversionFacts.

(** ** The condition evaluator *)

Section EvaluatorFacts.
Context {host : Host}.

(** C7. BETWEEN with numeric bounds [lo] and [hi] on a numeric response
    [r] holds exactly when [lo < r] and [r < hi]; it is false at [r = lo]
    and at [r = hi]. Both revisions. *)
Theorem between_is_strict_on_both_ends (c : Condition.t) (h : Heap)
    (response : QuestionResponse.t) (lo hi r : number) :
  responses h !! Condition.questionId c = Some response ->
  Condition.operator c = BETWEEN ->
  Condition.value c = VNum lo ->
  Condition.additionalValue c = VNum hi ->
  QuestionResponse.value response = VNum r ->
  Internal.evaluateCondition c h = (Returned (number_lt lo r && number_lt r hi), h)
  /\ DateAware.evaluateCondition c h = (Returned (number_lt lo r && number_lt r hi), h)
  /\ (number_eq r lo = true -> number_lt lo r && number_lt r hi = false)
  /\ (number_eq r hi = true -> number_lt lo r && number_lt r hi = false).
Proof.
  intros Hsome Hop Hlo Hhi Hr. repeat split.
  - step_condition_at Hsome. rewrite Hop, Hlo, Hhi, Hr. reflexivity.
  - step_condition_at Hsome. rewrite Hop, Hlo, Hhi, Hr. reflexivity.
  - intros E. apply number_eq_not_lt in E as [_ ->]. reflexivity.
  - intros E. apply number_eq_not_lt in E as [-> _]. apply andb_false_r.
Qed.

(** C4, as the code has it. In the second revision GREATER_THAN and
    LESS_THAN compare two dates by time value and anything else by numeric
    coercion of both sides. In [types.ts] they hold only for a response
    that is a number, which is then compared with the condition value
    coerced to a number. *)
Theorem ordering_operators_compare (c : Condition.t) (h : Heap)
    (response : QuestionResponse.t) :
  responses h !! Condition.questionId c = Some response ->
  let rv := QuestionResponse.value response in
  let cv := Condition.value c in
  (Condition.operator c = GREATER_THAN ->
   DateAware.evaluateCondition c h = (Returned (date_or_numeric number_gt rv cv), h)
   /\ Internal.evaluateCondition c h
      = (Returned (typeof_number rv && number_gt (ToNumber rv) (ToNumber cv)), h))
  /\ (Condition.operator c = LESS_THAN ->
      DateAware.evaluateCondition c h = (Returned (date_or_numeric number_lt rv cv), h)
      /\ Internal.evaluateCondition c h
         = (Returned (typeof_number rv && number_lt (ToNumber rv) (ToNumber cv)), h)).
Proof.
  intros Hsome rv cv. split; intros Hop; split; step_condition_at Hsome;
    rewrite Hop; fold rv cv.
  - destruct rv, cv; reflexivity.
  - destruct rv; try reflexivity. cbn [typeof_number andb].
    now rewrite js_gt_number_l.
  - destruct rv, cv; reflexivity.
  - destruct rv; try reflexivity. cbn [typeof_number andb].
    now rewrite js_lt_number_l.
Qed.

(** C3, as the code has it. BETWEEN with a numeric lower bound [lo], no
    [additionalValue] and a finite numeric response [r > lo]: [types.ts]
    evaluates it true (the upper bound defaults to [Infinity]), the second
    revision false (it wants both bounds). *)
Theorem between_without_upper_bound (c : Condition.t) (h : Heap)
    (response : QuestionResponse.t) (lo r : number) :
  responses h !! Condition.questionId c = Some response ->
  Condition.operator c = BETWEEN ->
  Condition.value c = VNum lo ->
  Condition.additionalValue c = VUndefined ->
  QuestionResponse.value response = VNum r ->
  number_gt r lo = true ->
  isFinite r = true ->
  Internal.evaluateCondition c h = (Returned true, h)
  /\ DateAware.evaluateCondition c h = (Returned false, h).
Proof.
  intros Hsome Hop Hlo Hav Hr Hgt Hfin. split.
  - step_condition_at Hsome. rewrite Hop, Hlo, Hav, Hr.
    cbn [typeof_number andb]. rewrite js_gt_number_l, js_lt_number_l.
    rewrite !ToNumber_VNum, Hgt. now rewrite finite_lt_Infinity.
  - step_condition_at Hsome. rewrite Hop, Hlo, Hav. reflexivity.
Qed.

(** C2, as the code has it. A transition without conditions fires when its
    [combinationType] is AND or absent ([every] of nothing), and does not
    fire when it is OR ([some] of nothing). Both revisions. *)
Theorem transition_without_conditions (t : Transition.t) (h : Heap) :
  Transition.conditions t = [] ->
  let fires := match Transition.combinationType t with
               | Some OR => false
               | _ => true
               end in
  Internal.evaluateTransition t h = (Returned fires, h)
  /\ DateAware.evaluateTransition t h = (Returned fires, h).
Proof.
  intros Hnil fires. subst fires.
  unfold Internal.evaluateTransition, DateAware.evaluateTransition.
  rewrite Hnil. destruct (Transition.combinationType t) as [[]|]; now split.
Qed.

(** CONTAINS and NOT_CONTAINS are both false on a response that is not an
    array. Both revisions. *)
Theorem contains_needs_an_array (c : Condition.t) (h : Heap)
    (response : QuestionResponse.t) :
  responses h !! Condition.questionId c = Some response ->
  Array_isArray (QuestionResponse.value response) = false ->
  Condition.operator c = CONTAINS \/ Condition.operator c = NOT_CONTAINS ->
  Internal.evaluateCondition c h = (Returned false, h)
  /\ DateAware.evaluateCondition c h = (Returned false, h).
Proof.
  intros Hsome Harr [Hop|Hop]; split; step_condition_at Hsome; rewrite Hop;
    destruct (QuestionResponse.value response); try reflexivity; discriminate.
Qed.

(** *** Equality *)

Lemma value_equal_off_objects (a b : JsValue) :
  is_object a && is_object b = false ->
  strict_equals a b = value_equal a b
  /\ DateAware.compareValues a b = value_equal a b.
Proof. destruct a, b; try discriminate; split; reflexivity. Qed.

(** C5. EQUALS is equality of values when the response value or the
    condition value is not an object (a string, a number, a boolean, null
    or undefined). On two dates the revision [part_000] compares the time
    values, whichever objects carry them, and the revision [types.ts]
    holds only when the two are the same object. On two arrays both
    revisions hold only when the two are the same object, whatever their
    items. *)
Theorem equals_is_by_value_off_objects (c : Condition.t) (h : Heap)
    (response : QuestionResponse.t) :
  responses h !! Condition.questionId c = Some response ->
  Condition.operator c = EQUALS ->
  let rv := QuestionResponse.value response in
  let cv := Condition.value c in
  (is_object rv && is_object cv = false ->
   Internal.evaluateCondition c h = (Returned (value_equal rv cv), h)
   /\ DateAware.evaluateCondition c h = (Returned (value_equal rv cv), h))
  /\ (forall (r1 r2 : ref) (t1 t2 : number),
        rv = VDate r1 t1 -> cv = VDate r2 t2 ->
        DateAware.evaluateCondition c h = (Returned (number_eq t1 t2), h)
        /\ Internal.evaluateCondition c h = (Returned (Pos.eqb r1 r2), h))
  /\ (forall (r1 r2 : ref) (xs ys : list JsValue),
        rv = VArr r1 xs -> cv = VArr r2 ys ->
        Internal.evaluateCondition c h = (Returned (Pos.eqb r1 r2), h)
        /\ DateAware.evaluateCondition c h = (Returned (Pos.eqb r1 r2), h)).
Proof.
  intros Hsome Hop rv cv. split; [|split].
  - intros Hoff. destruct (value_equal_off_objects rv cv Hoff) as [Hi Hd].
    split; step_condition_at Hsome; rewrite Hop; fold rv cv; now rewrite ?Hi, ?Hd.
  - intros r1 r2 t1 t2 Hr Hc.
    split; step_condition_at Hsome; rewrite Hop; fold rv cv; now rewrite Hr, Hc.
  - intros r1 r2 xs ys Hr Hc.
    split; step_condition_at Hsome; rewrite Hop; fold rv cv; now rewrite Hr, Hc.
Qed.

(** *** Keys the responses inherit *)

(** C8. The responses hold nothing under ["toString"], and the condition
    that the answer to ["toString"] is not ["x"] evaluates to true: the
    read yields the method every object inherits, which passes for a
    response with no [value]. Both revisions. *)
Theorem condition_on_toString_holds_without_a_response :
  responses empty_heap !! Condition.questionId not_toString = None
  /\ Internal.evaluateCondition not_toString empty_heap = (Returned true, empty_heap)
  /\ DateAware.evaluateCondition not_toString empty_heap = (Returned true, empty_heap).
Proof. split; [|split]; reflexivity. Qed.

(** C6. The responses hold nothing under ["constructor"], and of the
    condition on ["constructor"] the EQUALS evaluation is false while the
    NOT_EQUALS evaluation is true. Both revisions. *)
Theorem not_equals_on_constructor_holds_without_a_response :
  responses empty_heap !! Condition.questionId on_constructor = None
  /\ Internal.evaluateCondition (with_operator EQUALS on_constructor) empty_heap
     = (Returned false, empty_heap)
  /\ Internal.evaluateCondition (with_operator NOT_EQUALS on_constructor) empty_heap
     = (Returned true, empty_heap)
  /\ DateAware.evaluateCondition (with_operator EQUALS on_constructor) empty_heap
     = (Returned false, empty_heap)
  /\ DateAware.evaluateCondition (with_operator NOT_EQUALS on_constructor) empty_heap
     = (Returned true, empty_heap).
Proof. split; [|split; [|split; [|split]]]; reflexivity. Qed.

(** *** Evaluation reads the responses and never writes them *)

Lemma reads_only_ret {A : Type} (a : A) : reads_only (ret a).
Proof. intros h1 h2 E. now split. Qed.

Lemma reads_only_bind {A B : Type} (m : M Heap A) (f : A -> M Heap B) :
  reads_only m -> (forall a, reads_only (f a)) -> reads_only (bind m f).
Proof.
  intros Hm Hf h1 h2 E. unfold bind.
  destruct (Hm h1 h2 E) as [Ho Hs1].
  destruct (Hm h2 h1 (eq_sym E)) as [_ Hs2].
  destruct (m h1) as [o1 s1], (m h2) as [o2 s2]. cbn [fst snd] in *. subst o2.
  destruct o1 as [a|e].
  - assert (Es : responses s1 = responses s2) by congruence.
    destruct (Hf a s1 s2 Es) as [Ho' Hs']. split; congruence.
  - now split.
Qed.

Lemma reads_only_read_response (q : string) : reads_only (read_response q).
Proof. intros h1 h2 E. unfold read_response. cbn. now rewrite E. Qed.

Lemma reads_only_new_RegExp (pattern : JsValue) : reads_only (new_RegExp pattern).
Proof.
  intros h1 h2 E. unfold new_RegExp.
  destruct (RegExpCompile _); now split.
Qed.

Lemma reads_only_every {A : Type} (f : A -> M Heap bool) (l : list A) :
  (forall x, reads_only (f x)) -> reads_only (every f l).
Proof.
  intros Hf. induction l as [|x l IH]; cbn [every].
  - apply reads_only_ret.
  - apply reads_only_bind; [apply Hf|].
    intros []; [exact IH | apply reads_only_ret].
Qed.

Lemma reads_only_some {A : Type} (f : A -> M Heap bool) (l : list A) :
  (forall x, reads_only (f x)) -> reads_only (some f l).
Proof.
  intros Hf. induction l as [|x l IH]; cbn [some].
  - apply reads_only_ret.
  - apply reads_only_bind; [apply Hf|].
    intros []; [apply reads_only_ret | exact IH].
Qed.

Lemma reads_only_matches (rv cv : JsValue) :
  reads_only
    match rv with
    | VStr s => re <- new_RegExp cv ;; ret (re s)
    | _ => ret false
    end.
Proof.
  destruct rv; try apply reads_only_ret.
  apply reads_only_bind; [apply reads_only_new_RegExp|].
  intros re. apply reads_only_ret.
Qed.

Lemma Internal_evaluateCondition_reads_only (c : Condition.t) :
  reads_only (Internal.evaluateCondition c).
Proof.
  unfold Internal.evaluateCondition.
  apply reads_only_bind; [apply reads_only_read_response|].
  intros [response|]; [|apply reads_only_ret].
  destruct (Condition.operator c);
    first [apply reads_only_ret | apply reads_only_matches].
Qed.

Lemma DateAware_evaluateCondition_reads_only (c : Condition.t) :
  reads_only (DateAware.evaluateCondition c).
Proof.
  unfold DateAware.evaluateCondition.
  apply reads_only_bind; [apply reads_only_read_response|].
  intros [response|]; [|apply reads_only_ret].
  destruct (Condition.operator c);
    try apply reads_only_ret; try apply reads_only_matches.
  repeat match goal with
         | |- reads_only (if ?b then _ else _) => destruct b
         end; apply reads_only_ret.
Qed.



End EvaluatorFacts.

(** ** The quiz validator *)

Lemma lookup_prop_update (key key' : string) (g : JsValue -> JsValue)
    (props : list (string * JsValue)) :
  g VUndefined = VUndefined ->
  lookup_prop key'
    (map (fun e => if String.eqb (fst e) key then (fst e, g (snd e)) else e) props)
  = if String.eqb key key' then g (lookup_prop key' props) else lookup_prop key' props.
Proof.
  intros Hg. induction props as [|[k x] props IH]; cbn [map lookup_prop fst snd].
  - rewrite Hg. now destruct (String.eqb key key').
  - destruct (String.eqb_spec k key) as [->|Hk]; cbn [lookup_prop].
    + destruct (String.eqb_spec key key') as [->|Hne]; [reflexivity|exact IH].
    + destruct (String.eqb_spec k key') as [->|Hk']; [|exact IH].
      destruct (String.eqb_spec key key') as [->|_]; [contradiction|reflexivity].
Qed.

(** An object schema does not see a rewrite of one property that the
    property's own schema does not see. *)
Lemma v_object_update_prop (entries : list (string * schema)) (key : string)
    (g : JsValue -> JsValue) (v : JsValue) :
  g VUndefined = VUndefined ->
  (forall s x, In (key, s) entries -> s (g x) = s x) ->
  v_object entries (update_prop key g v) = v_object entries v.
Proof.
  intros Hg Hs. destruct v as [| | | | | | |r props]; try reflexivity.
  unfold v_object. cbn [update_prop is_object andb get_prop].
  induction entries as [|[k s] entries IH]; [reflexivity|].
  cbn [forallb fst snd]. rewrite IH by (intros; apply Hs; now right).
  f_equal. rewrite lookup_prop_update by exact Hg.
  destruct (String.eqb_spec key k) as [->|_]; [|reflexivity].
  apply Hs. now left.
Qed.

Lemma v_array_map_items (item : schema) (g : JsValue -> JsValue) (v : JsValue) :
  (forall x, item (g x) = item x) ->
  v_array item (map_items g v) = v_array item v.
Proof.
  intros Hg. destruct v as [| | | | | |r items|]; try reflexivity.
  cbn [map_items v_array]. induction items as [|x items IH]; [reflexivity|].
  cbn [map forallb]. now rewrite Hg, IH.
Qed.

Lemma map_items_undefined (g : JsValue -> JsValue) : map_items g VUndefined = VUndefined.
Proof. reflexivity. Qed.

Section Retarget.
Variable RatingValidationSchema ConditionSchema : schema.
Variable f : string -> string.

Lemma TransitionSchema_retarget (transition : JsValue) :
  TransitionSchema_of ConditionSchema (retarget_transition f transition)
  = TransitionSchema_of ConditionSchema transition.
Proof.
  apply v_object_update_prop; [reflexivity|].
  intros s x H. pick_entry H. now destruct x.
Qed.

Lemma NodeSchema_retarget (node : JsValue) :
  NodeSchema_of RatingValidationSchema ConditionSchema (retarget_node f node)
  = NodeSchema_of RatingValidationSchema ConditionSchema node.
Proof.
  apply v_object_update_prop; [reflexivity|].
  intros s x H. pick_entry H.
  apply v_array_map_items, TransitionSchema_retarget.
Qed.

Lemma QuizSchema_retarget (quiz : JsValue) :
  QuizSchema_of RatingValidationSchema ConditionSchema (retarget f quiz)
  = QuizSchema_of RatingValidationSchema ConditionSchema quiz.
Proof.
  apply v_object_update_prop; [reflexivity|].
  intros s x H. pick_entry H.
  apply v_array_map_items, NodeSchema_retarget.
Qed.

End Retarget.

(** What [validateQuiz] returns and logs, in terms of the schema. *)
Lemma validateQuiz_of_spec (R C : schema) (quiz : JsValue) (console : Console) :
  validateQuiz_of R C quiz console
  = if QuizSchema_of R C quiz
    then (Returned true, console)
    else (Returned false, app console [("Quiz validation failed:", ValiError)]).
Proof.
  unfold validateQuiz_of, try_catch, bind, v_parse, console_error, ret.
  now destruct (QuizSchema_of R C quiz).
Qed.

(** C10. For every input, well formed or not, [validateQuiz] returns a
    boolean and throws nothing: it returns true when the parse returns,
    and false, after logging the error, when the parse throws. Both
    revisions. *)
Theorem validateQuiz_never_throws (quiz : JsValue) (console : Console) :
  (exists (b : bool) (console' : Console),
     Internal.validateQuiz quiz console = (Returned b, console')
     /\ (b = true <->
         v_parse Internal.QuizSchema quiz console = (Returned quiz, console))
     /\ (b = false <->
         v_parse Internal.QuizSchema quiz console = (Thrown ValiError, console)))
  /\ (exists (b : bool) (console' : Console),
        DateAware.validateQuiz quiz console = (Returned b, console')
        /\ (b = true <->
            v_parse DateAware.QuizSchema quiz console = (Returned quiz, console))
        /\ (b = false <->
            v_parse DateAware.QuizSchema quiz console = (Thrown ValiError, console))).
Proof.
  unfold Internal.validateQuiz, DateAware.validateQuiz,
    Internal.QuizSchema, DateAware.QuizSchema, v_parse.
  split; rewrite validateQuiz_of_spec;
    match goal with
    | |- context [if ?s then (Returned true, _) else _] => destruct s
    end;
    eexists; eexists; (split; [reflexivity|]); split; split; congruence.
Qed.

(** C1, as the code has it. [validateQuiz] checks the shape of a quiz and
    not where its transitions lead: sending every [nextNodeId] through any
    renaming leaves its result and its log unchanged, so a quiz with a
    dangling [nextNodeId] is accepted exactly when the quiz with that
    reference corrected is. Both revisions. *)
Theorem validateQuiz_ignores_transition_targets (f : string -> string)
    (quiz : JsValue) (console : Console) :
  Internal.validateQuiz (retarget f quiz) console = Internal.validateQuiz quiz console
  /\ DateAware.validateQuiz (retarget f quiz) console = DateAware.validateQuiz quiz console.
Proof.
  unfold Internal.validateQuiz, DateAware.validateQuiz.
  rewrite !validateQuiz_of_spec, !QuizSchema_retarget. now split.
Qed.

(** ** Concrete cases *)

(** C7 at the answer 20 between the bounds 18 and 65. *)
Lemma between_is_strict_on_both_ends_witness :
  responses (heap_with "age" (VNum (number_of_Z 20))) !! Condition.questionId between_18_and_65
  = Some (answer "age" (VNum (number_of_Z 20)))
  /\ Internal.evaluateCondition (host := example_host) between_18_and_65
       (heap_with "age" (VNum (number_of_Z 20)))
     = (Returned true, heap_with "age" (VNum (number_of_Z 20)))
  /\ DateAware.evaluateCondition (host := example_host) between_18_and_65
       (heap_with "age" (VNum (number_of_Z 20)))
     = (Returned true, heap_with "age" (VNum (number_of_Z 20))).
Proof.
  assert (Hsome : responses (heap_with "age" (VNum (number_of_Z 20)))
                    !! Condition.questionId between_18_and_65
                  = Some (answer "age" (VNum (number_of_Z 20))))
    by (vm_compute; reflexivity).
  split; [exact Hsome|].
  destruct (@between_is_strict_on_both_ends example_host between_18_and_65
              (heap_with "age" (VNum (number_of_Z 20))) _
              (number_of_Z 18) (number_of_Z 65) (number_of_Z 20)
              Hsome eq_refl eq_refl eq_refl eq_refl) as (Hi & Hd & _).
  split; [exact Hi | exact Hd].
Defined.

(** C4 at the text answer "20" to a condition on 18: coerced and compared
    in the second revision, refused in [types.ts]. *)
Lemma ordering_operators_compare_witness :
  responses (heap_with "age" (VStr "20")) !! Condition.questionId older_than_18
  = Some (answer "age" (VStr "20"))
  /\ Condition.operator older_than_18 = GREATER_THAN
  /\ DateAware.evaluateCondition (host := example_host) older_than_18
       (heap_with "age" (VStr "20"))
     = (Returned true, heap_with "age" (VStr "20"))
  /\ Internal.evaluateCondition (host := example_host) older_than_18
       (heap_with "age" (VStr "20"))
     = (Returned false, heap_with "age" (VStr "20")).
Proof.
  assert (Hsome : responses (heap_with "age" (VStr "20")) !! Condition.questionId older_than_18
                  = Some (answer "age" (VStr "20")))
    by (vm_compute; reflexivity).
  split; [exact Hsome|]. split; [reflexivity|].
  exact (proj1 (@ordering_operators_compare example_host older_than_18
                  (heap_with "age" (VStr "20")) _ Hsome) eq_refl).
Defined.

(** C3 at the answer 20 to a lower bound of 18 with no upper bound. *)
Lemma between_without_upper_bound_witness :
  responses (heap_with "age" (VNum (number_of_Z 20))) !! Condition.questionId above_18
  = Some (answer "age" (VNum (number_of_Z 20)))
  /\ number_gt (number_of_Z 20) (number_of_Z 18) = true
  /\ isFinite (number_of_Z 20) = true
  /\ Internal.evaluateCondition (host := example_host) above_18
       (heap_with "age" (VNum (number_of_Z 20)))
     = (Returned true, heap_with "age" (VNum (number_of_Z 20)))
  /\ DateAware.evaluateCondition (host := example_host) above_18
       (heap_with "age" (VNum (number_of_Z 20)))
     = (Returned false, heap_with "age" (VNum (number_of_Z 20))).
Proof.
  assert (Hsome : responses (heap_with "age" (VNum (number_of_Z 20)))
                    !! Condition.questionId above_18
                  = Some (answer "age" (VNum (number_of_Z 20))))
    by (vm_compute; reflexivity).
  split; [exact Hsome|]. split; [reflexivity|]. split; [reflexivity|].
  exact (@between_without_upper_bound example_host above_18
           (heap_with "age" (VNum (number_of_Z 20))) _
           (number_of_Z 18) (number_of_Z 20)
           Hsome eq_refl eq_refl eq_refl eq_refl eq_refl eq_refl).
Defined.

(** C2 at a transition with no conditions and no [combinationType]. *)
Lemma transition_without_conditions_witness :
  Transition.conditions (Transition.mk [] "B" None) = []
  /\ Internal.evaluateTransition (host := example_host) (Transition.mk [] "B" None) empty_heap
     = (Returned true, empty_heap)
  /\ DateAware.evaluateTransition (host := example_host) (Transition.mk [] "B" None) empty_heap
     = (Returned true, empty_heap).
Proof.
  split; [reflexivity|].
  exact (@transition_without_conditions example_host (Transition.mk [] "B" None)
           empty_heap eq_refl).
Defined.


(** CONTAINS on the text answer "Ada" is false. *)
Lemma contains_needs_an_array_witness :
  responses (heap_with "name" (VStr "Ada")) !! "name" = Some (answer "name" (VStr "Ada"))
  /\ Array_isArray (VStr "Ada") = false
  /\ Internal.evaluateCondition (host := example_host)
       (Condition.mk "name" CONTAINS (VStr "Ada") VUndefined)
       (heap_with "name" (VStr "Ada"))
     = (Returned false, heap_with "name" (VStr "Ada"))
  /\ DateAware.evaluateCondition (host := example_host)
       (Condition.mk "name" CONTAINS (VStr "Ada") VUndefined)
       (heap_with "name" (VStr "Ada"))
     = (Returned false, heap_with "name" (VStr "Ada")).
Proof.
  assert (Hsome : responses (heap_with "name" (VStr "Ada")) !! "name"
                  = Some (answer "name" (VStr "Ada")))
    by (vm_compute; reflexivity).
  split; [exact Hsome|]. split; [reflexivity|].
  exact (@contains_needs_an_array example_host
           (Condition.mk "name" CONTAINS (VStr "Ada") VUndefined)
           (heap_with "name" (VStr "Ada")) _ Hsome eq_refl (or_introl eq_refl)).
Defined.

(** C5 at two date objects that are different references and carry the
    same time value: EQUALS in [part_000], not EQUALS in [types.ts]. *)
Lemma equals_is_by_value_off_objects_witness :
  responses (heap_with "birth" epoch) !! Condition.questionId born_at_epoch
  = Some (answer "birth" epoch)
  /\ Condition.operator born_at_epoch = EQUALS
  /\ DateAware.evaluateCondition (host := example_host) born_at_epoch
       (heap_with "birth" epoch)
     = (Returned true, heap_with "birth" epoch)
  /\ Internal.evaluateCondition (host := example_host) born_at_epoch
       (heap_with "birth" epoch)
     = (Returned false, heap_with "birth" epoch).
Proof.
  assert (Hsome : responses (heap_with "birth" epoch) !! Condition.questionId born_at_epoch
                  = Some (answer "birth" epoch))
    by (vm_compute; reflexivity).
  split; [exact Hsome|]. split; [reflexivity|].
  exact (proj1 (proj2 (@equals_is_by_value_off_objects example_host born_at_epoch
                         (heap_with "birth" epoch) _ Hsome eq_refl))
           1%positive 2%positive (S754_zero false) (S754_zero false) eq_refl eq_refl).
Defined.

(** *** Where the claims as written fail *)

(** C1. The sample quiz whose only transition leads to a node ["Z"] that
    does not exist is accepted by both revisions, and so is the quiz with
    the reference corrected to ["B"]. *)
Lemma dangling_nextNodeId_is_accepted :
  references_resolve (sample_quiz "Z") = false
  /\ references_resolve (sample_quiz "B") = true
  /\ Internal.validateQuiz (sample_quiz "Z") [] = (Returned true, [])
  /\ DateAware.validateQuiz (sample_quiz "Z") [] = (Returned true, [])
  /\ Internal.validateQuiz (sample_quiz "B") [] = (Returned true, [])
  /\ DateAware.validateQuiz (sample_quiz "B") [] = (Returned true, []).
Proof. repeat split; vm_compute; reflexivity. Qed.

(** C2. A transition with no conditions and [combinationType] OR does not
    fire. *)
Lemma or_transition_without_conditions_does_not_fire :
  Internal.evaluateTransition (host := example_host)
    (Transition.mk [] "B" (Some OR)) empty_heap
  = (Returned false, empty_heap)
  /\ DateAware.evaluateTransition (host := example_host)
       (Transition.mk [] "B" (Some OR)) empty_heap
     = (Returned false, empty_heap).
Proof. split; reflexivity. Qed.

(** C3. The response [Infinity] is above the lower bound 18, and BETWEEN
    without an upper bound is false on it in [types.ts] too: [Infinity] is
    not below the default upper bound [Infinity]. *)
Lemma between_without_upper_bound_at_Infinity :
  Internal.is_response_value (VNum Infinity) = true
  /\ Internal.well_typed above_18 = true
  /\ number_gt Infinity (number_of_Z 18) = true
  /\ Internal.evaluateCondition (host := example_host) above_18
       (heap_with "age" (VNum Infinity))
     = (Returned false, heap_with "age" (VNum Infinity)).
Proof. repeat split; vm_compute; reflexivity. Qed.

(** C4. In [types.ts] the text answer "20" is not GREATER_THAN 18, although
    neither side is a date and 20 > 18 as numbers. *)
Lemma text_response_is_not_coerced :
  Internal.is_response_value (VStr "20") = true
  /\ Internal.well_typed older_than_18 = true
  /\ date_or_numeric (host := example_host) number_gt
       (VStr "20") (Condition.value older_than_18) = true
  /\ Internal.evaluateCondition (host := example_host) older_than_18
       (heap_with "age" (VStr "20"))
     = (Returned false, heap_with "age" (VStr "20")).
Proof. repeat split; vm_compute; reflexivity. Qed.

(** C5. The answer [["tea"]] and the condition value [["tea"]] are equal
    values, both of the kinds the schemas allow, and the EQUALS condition
    is false in both revisions: the two arrays are different objects. In
    [types.ts] the same happens to two dates of the same time value. *)
Lemma equal_arrays_are_not_EQUALS :
  Internal.is_response_value tea_only = true
  /\ Internal.well_typed drinks_tea_only = true
  /\ DateAware.is_response_value tea_only = true
  /\ DateAware.well_typed drinks_tea_only = true
  /\ value_equal tea_only (Condition.value drinks_tea_only) = true
  /\ Internal.evaluateCondition (host := example_host) drinks_tea_only
       (heap_with "drinks" tea_only)
     = (Returned false, heap_with "drinks" tea_only)
  /\ DateAware.evaluateCondition (host := example_host) drinks_tea_only
       (heap_with "drinks" tea_only)
     = (Returned false, heap_with "drinks" tea_only)
  /\ value_equal epoch (Condition.value born_at_epoch) = true
  /\ Internal.evaluateCondition (host := example_host) born_at_epoch
       (heap_with "birth" epoch)
     = (Returned false, heap_with "birth" epoch).
Proof. repeat split; vm_compute; reflexivity. Qed.

(** * Further properties *)

(** ** The order of numbers *)

Lemma SFcompare_antisym (x y : number) :
  SFcompare y x = option_map CompOpp (SFcompare x y).
Proof.
  destruct x as [sx|sx| |sx mx ex], y as [sy|sy| |sy my ey];
    try destruct sx; try destruct sy; cbn [SFcompare option_map CompOpp];
    try reflexivity.
  - rewrite (Z.compare_antisym ex ey). destruct (ex ?= ey)%Z; cbn [CompOpp]; try reflexivity.
    now rewrite (Pos.compare_cont_antisym mx my Eq).
  - rewrite (Z.compare_antisym ex ey). destruct (ex ?= ey)%Z; cbn [CompOpp]; try reflexivity.
    now rewrite (Pos.compare_cont_antisym mx my Eq).
Qed.

(** No number is below itself, and two numbers are never each below the
    other. *)
Lemma number_lt_irrefl (x : number) : number_lt x x = false.
Proof.
  unfold number_lt, SFltb. pose proof (SFcompare_antisym x x) as E.
  destruct (SFcompare x x) as [[]|]; try reflexivity; discriminate.
Qed.

Lemma number_lt_asym (x y : number) : number_lt x y = true -> number_lt y x = false.
Proof.
  unfold number_lt, SFltb. rewrite (SFcompare_antisym x y).
  destruct (SFcompare x y) as [[]|]; cbn; congruence.
Qed.

(** ** More on the condition evaluator *)

Section EvaluatorMore.
Context {host : Host}.

(** *** Membership *)

Lemma existsb_is_string (item_eq : JsValue -> JsValue -> bool) (s : string)
    (items : list JsValue) :
  (forall x, item_eq x (VStr s) = true <-> x = VStr s) ->
  existsb (fun x => item_eq x (VStr s)) items = true <-> In (VStr s) items.
Proof.
  intros Heq. rewrite existsb_exists. split.
  - intros (x & Hin & Hx). apply Heq in Hx. now subst.
  - intros Hin. exists (VStr s). split; [exact Hin | now apply Heq].
Qed.

Lemma strict_equals_string (x : JsValue) (s : string) :
  strict_equals x (VStr s) = true <-> x = VStr s.
Proof.
  destruct x; cbn; try (split; [discriminate|discriminate]).
  rewrite String.eqb_eq. split; congruence.
Qed.

Lemma same_value_zero_string (x : JsValue) (s : string) :
  same_value_zero x (VStr s) = true <-> x = VStr s.
Proof. destruct x; try apply strict_equals_string; cbn; split; discriminate. Qed.

Lemma compareValues_string (x : JsValue) (s : string) :
  DateAware.compareValues x (VStr s) = true <-> x = VStr s.
Proof. destruct x; try apply strict_equals_string; cbn; split; discriminate. Qed.

(** On an array response, CONTAINS of a string holds exactly when the
    string is an element of the array, and NOT_CONTAINS is its negation.
    Both revisions. *)
Theorem contains_is_membership (c : Condition.t) (h : Heap)
    (response : QuestionResponse.t) (r : ref) (items : list JsValue) (s : string) :
  responses h !! Condition.questionId c = Some response ->
  QuestionResponse.value response = VArr r items ->
  Condition.value c = VStr s ->
  exists b : bool,
    (b = true <-> In (VStr s) items)
    /\ Internal.evaluateCondition (with_operator CONTAINS c) h = (Returned b, h)
    /\ Internal.evaluateCondition (with_operator NOT_CONTAINS c) h = (Returned (negb b), h)
    /\ DateAware.evaluateCondition (with_operator CONTAINS c) h = (Returned b, h)
    /\ DateAware.evaluateCondition (with_operator NOT_CONTAINS c) h = (Returned (negb b), h).
Proof.
  intros Hsome Hrv Hcv.
  exists (existsb (fun x => same_value_zero x (VStr s)) items).
  assert (E : existsb (fun x => DateAware.compareValues x (VStr s)) items
              = existsb (fun x => same_value_zero x (VStr s)) items).
  { apply eq_true_iff_eq.
    pose proof (existsb_is_string DateAware.compareValues s items
                  (fun x => compareValues_string x s)) as Hd.
    pose proof (existsb_is_string same_value_zero s items
                  (fun x => same_value_zero_string x s)) as Hi.
    tauto. }
  split; [exact (existsb_is_string same_value_zero s items
                   (fun x => same_value_zero_string x s))|].
  repeat split; step_condition;
    cbn [with_operator Condition.questionId Condition.operator Condition.value];
    rewrite Hsome; cbn [member_value]; rewrite Hrv, Hcv, ?E; reflexivity.
Qed.

(** *** Questions without a response *)

(** A condition on a key under which the responses hold nothing, and
    which is not a key every object inherits, evaluates to false,
    whatever its operator; nothing is thrown and the heap is left as it
    was. Both revisions. *)
Theorem condition_on_absent_key_is_false (c : Condition.t) (h : Heap) :
  responses h !! Condition.questionId c = None ->
  inherited (Condition.questionId c) = false ->
  Internal.evaluateCondition c h = (Returned false, h)
  /\ DateAware.evaluateCondition c h = (Returned false, h).
Proof.
  intros Hnone Hown. split; step_condition; now rewrite Hnone, Hown.
Qed.

(** Where the read of the responses yields something, a response or an
    inherited member, NOT_EQUALS is the negation of EQUALS on the same
    question and value; on an inherited member EQUALS compares undefined
    with the condition value. Where the read yields nothing, both are
    false. Both revisions. *)
Theorem not_equals_negates_equals_where_the_read_succeeds (c : Condition.t) (h : Heap) :
  (forall response : member,
     fst (read_response (Condition.questionId c) h) = Returned (Some response) ->
     let b := strict_equals (member_value response) (Condition.value c) in
     let b' := DateAware.compareValues (member_value response) (Condition.value c) in
     Internal.evaluateCondition (with_operator EQUALS c) h = (Returned b, h)
     /\ Internal.evaluateCondition (with_operator NOT_EQUALS c) h = (Returned (negb b), h)
     /\ DateAware.evaluateCondition (with_operator EQUALS c) h = (Returned b', h)
     /\ DateAware.evaluateCondition (with_operator NOT_EQUALS c) h = (Returned (negb b'), h))
  /\ (fst (read_response (Condition.questionId c) h) = Returned None ->
      Internal.evaluateCondition (with_operator EQUALS c) h = (Returned false, h)
      /\ Internal.evaluateCondition (with_operator NOT_EQUALS c) h = (Returned false, h)
      /\ DateAware.evaluateCondition (with_operator EQUALS c) h = (Returned false, h)
      /\ DateAware.evaluateCondition (with_operator NOT_EQUALS c) h = (Returned false, h))
  /\ (fst (read_response (Condition.questionId c) h) = Returned None
      <-> responses h !! Condition.questionId c = None
          /\ inherited (Condition.questionId c) = false).
Proof.
  split; [|split].
  - intros response Hread b b'. unfold read_response in Hread. cbn [fst] in Hread.
    injection Hread as Hread.
    repeat split; step_condition; cbn [with_operator Condition.questionId];
      now rewrite Hread.
  - intros Hread. unfold read_response in Hread. cbn [fst] in Hread.
    injection Hread as Hread.
    repeat split; step_condition; cbn [with_operator Condition.questionId];
      now rewrite Hread.
  - unfold read_response. cbn [fst].
    destruct (responses h !! Condition.questionId c);
      destruct (inherited (Condition.questionId c)); split;
      try (intros H; discriminate H); try (intros [H1 H2]; discriminate);
      try (intros _; split; reflexivity); try reflexivity.
Qed.

(** *** MATCHES *)

(** MATCHES on a response that is not a string is false, and the pattern
    is never compiled: nothing is thrown, whatever the pattern, and
    nothing is allocated. Both revisions. *)
Theorem matches_needs_a_string (c : Condition.t) (h : Heap)
    (response : QuestionResponse.t) :
  responses h !! Condition.questionId c = Some response ->
  Condition.operator c = MATCHES ->
  typeof_string (QuestionResponse.value response) = false ->
  Internal.evaluateCondition c h = (Returned false, h)
  /\ DateAware.evaluateCondition c h = (Returned false, h).
Proof.
  intros Hsome Hop Hrv. split; step_condition_at Hsome; rewrite Hop;
    destruct (QuestionResponse.value response); try reflexivity; discriminate.
Qed.

(** A condition with any operator but MATCHES returns a boolean and
    leaves the heap as it was. *)
Lemma condition_without_regexp_returns (c : Condition.t) (h : Heap) :
  Condition.operator c <> MATCHES ->
  (exists b, Internal.evaluateCondition c h = (Returned b, h))
  /\ (exists b, DateAware.evaluateCondition c h = (Returned b, h)).
Proof.
  intros Hop. split; step_condition;
    (destruct (responses h !! Condition.questionId c) as [response|];
     [|destruct (inherited (Condition.questionId c)); [|eauto]]);
    destruct (Condition.operator c); try contradiction; eauto;
    repeat match goal with
           | |- context [if ?b then _ else _] => destruct b
           end; eauto.
Qed.

Lemma every_returns {A : Type} (f : A -> M Heap bool) (l : list A) (h : Heap) :
  (forall x, In x l -> exists b, f x h = (Returned b, h)) ->
  exists b, every f l h = (Returned b, h).
Proof.
  induction l as [|x l IH]; intros Hf; cbn [every].
  - now exists true.
  - unfold bind. destruct (Hf x (or_introl eq_refl)) as [[] ->].
    + apply IH. intros y Hy. apply Hf. now right.
    + now exists false.
Qed.

Lemma some_returns {A : Type} (f : A -> M Heap bool) (l : list A) (h : Heap) :
  (forall x, In x l -> exists b, f x h = (Returned b, h)) ->
  exists b, some f l h = (Returned b, h).
Proof.
  induction l as [|x l IH]; intros Hf; cbn [some].
  - now exists false.
  - unfold bind. destruct (Hf x (or_introl eq_refl)) as [[] ->].
    + now exists true.
    + apply IH. intros y Hy. apply Hf. now right.
Qed.

(** A transition none of whose conditions is a MATCHES returns a boolean:
    it throws nothing, and the heap afterwards is the heap before, with no
    object allocated. Both revisions. *)
Theorem transition_without_regexp_returns (t : Transition.t) (h : Heap) :
  (forall c, In c (Transition.conditions t) -> Condition.operator c <> MATCHES) ->
  (exists b, Internal.evaluateTransition t h = (Returned b, h))
  /\ (exists b, DateAware.evaluateTransition t h = (Returned b, h)).
Proof.
  intros Hop.
  unfold Internal.evaluateTransition, DateAware.evaluateTransition.
  split; destruct (Transition.combinationType t) as [[]|];
    first [apply every_returns | apply some_returns];
    intros c Hc; apply (condition_without_regexp_returns c h (Hop c Hc)).
Qed.

End EvaluatorMore.

(** ** How conditions combine *)

Lemma reads_only_fst {A : Type} (m : M Heap A) (h1 h2 : Heap) :
  reads_only m -> responses h1 = responses h2 -> fst (m h1) = fst (m h2).
Proof. intros Hm E. apply (Hm h1 h2 E). Qed.

Lemma reads_only_snd {A : Type} (m : M Heap A) (h : Heap) :
  reads_only m -> responses (snd (m h)) = responses h.
Proof. intros Hm. apply (Hm h h eq_refl). Qed.

Section Combination.
Context {A : Type} (f : A -> M Heap bool).
Hypothesis f_reads_only : forall x, reads_only (f x).

(** One step of [every] and of [some], up to the heap the first callback
    leaves, which holds the same responses. *)
Lemma every_cons (x : A) (l : list A) (h : Heap) :
  fst (every f (x :: l) h)
  = match fst (f x h) with
    | Returned true => fst (every f l h)
    | Returned false => Returned false
    | Thrown e => Thrown e
    end.
Proof.
  cbn [every]. unfold bind.
  pose proof (reads_only_snd (f x) h (f_reads_only x)) as Hs.
  destruct (f x h) as [[[]|e] h']; cbn [fst snd] in *; try reflexivity.
  apply reads_only_fst; [now apply reads_only_every | exact Hs].
Qed.

Lemma some_cons (x : A) (l : list A) (h : Heap) :
  fst (some f (x :: l) h)
  = match fst (f x h) with
    | Returned true => Returned true
    | Returned false => fst (some f l h)
    | Thrown e => Thrown e
    end.
Proof.
  cbn [some]. unfold bind.
  pose proof (reads_only_snd (f x) h (f_reads_only x)) as Hs.
  destruct (f x h) as [[[]|e] h']; cbn [fst snd] in *; try reflexivity.
  apply reads_only_fst; [now apply reads_only_some | exact Hs].
Qed.

Lemma every_true_iff (l : list A) (h : Heap) :
  fst (every f l h) = Returned true
  <-> forall x, In x l -> fst (f x h) = Returned true.
Proof.
  induction l as [|x l IH].
  - split; [intros _ y []|reflexivity].
  - rewrite every_cons. split.
    + intros H y [<-|Hy]; destruct (fst (f x h)) as [[]|]; try discriminate;
        [reflexivity | now apply IH].
    + intros H. rewrite (H x (or_introl eq_refl)). apply IH.
      intros y Hy. apply H. now right.
Qed.

Lemma some_false_iff (l : list A) (h : Heap) :
  fst (some f l h) = Returned false
  <-> forall x, In x l -> fst (f x h) = Returned false.
Proof.
  induction l as [|x l IH].
  - split; [intros _ y []|reflexivity].
  - rewrite some_cons. split.
    + intros H y [<-|Hy]; destruct (fst (f x h)) as [[]|]; try discriminate;
        [reflexivity | now apply IH].
    + intros H. rewrite (H x (or_introl eq_refl)). apply IH.
      intros y Hy. apply H. now right.
Qed.

Lemma every_false_exists (l : list A) (h : Heap) :
  fst (every f l h) = Returned false ->
  exists x, In x l /\ fst (f x h) = Returned false.
Proof.
  induction l as [|x l IH]; [discriminate|].
  rewrite every_cons. destruct (fst (f x h)) as [[]|] eqn:E; try discriminate.
  - intros H. destruct (IH H) as (y & Hy & Hf). exists y. split; [now right|exact Hf].
  - intros _. exists x. split; [now left|exact E].
Qed.

Lemma some_true_exists (l : list A) (h : Heap) :
  fst (some f l h) = Returned true ->
  exists x, In x l /\ fst (f x h) = Returned true.
Proof.
  induction l as [|x l IH]; [discriminate|].
  rewrite some_cons. destruct (fst (f x h)) as [[]|] eqn:E; try discriminate.
  - intros _. exists x. split; [now left|exact E].
  - intros H. destruct (IH H) as (y & Hy & Hf). exists y. split; [now right|exact Hf].
Qed.

(** The first element that decides ends the walk: what follows it is not
    looked at. *)
Lemma every_stops_at_false (pre rest : list A) (x : A) (h : Heap) :
  (forall y, In y pre -> fst (f y h) = Returned true) ->
  fst (f x h) = Returned false ->
  fst (every f (pre ++ x :: rest)%list h) = Returned false.
Proof.
  intros Hpre Hx. induction pre as [|y pre IH]; cbn [app]; rewrite every_cons.
  - now rewrite Hx.
  - rewrite (Hpre y (or_introl eq_refl)). apply IH. intros z Hz. apply Hpre. now right.
Qed.

Lemma some_stops_at_true (pre rest : list A) (x : A) (h : Heap) :
  (forall y, In y pre -> fst (f y h) = Returned false) ->
  fst (f x h) = Returned true ->
  fst (some f (pre ++ x :: rest)%list h) = Returned true.
Proof.
  intros Hpre Hx. induction pre as [|y pre IH]; cbn [app]; rewrite some_cons.
  - now rewrite Hx.
  - rewrite (Hpre y (or_introl eq_refl)). apply IH. intros z Hz. apply Hpre. now right.
Qed.

(** So does the first element whose callback throws. *)
Lemma every_stops_at_throw (pre rest : list A) (x : A) (e : exn) (h : Heap) :
  (forall y, In y pre -> fst (f y h) = Returned true) ->
  fst (f x h) = Thrown e ->
  fst (every f (pre ++ x :: rest)%list h) = Thrown e.
Proof.
  intros Hpre Hx. induction pre as [|y pre IH]; cbn [app]; rewrite every_cons.
  - now rewrite Hx.
  - rewrite (Hpre y (or_introl eq_refl)). apply IH. intros z Hz. apply Hpre. now right.
Qed.

Lemma some_stops_at_throw (pre rest : list A) (x : A) (e : exn) (h : Heap) :
  (forall y, In y pre -> fst (f y h) = Returned false) ->
  fst (f x h) = Thrown e ->
  fst (some f (pre ++ x :: rest)%list h) = Thrown e.
Proof.
  intros Hpre Hx. induction pre as [|y pre IH]; cbn [app]; rewrite some_cons.
  - now rewrite Hx.
  - rewrite (Hpre y (or_introl eq_refl)). apply IH. intros z Hz. apply Hpre. now right.
Qed.

End Combination.

Section TransitionFacts.
Context {host : Host}.

(** A transition whose [combinationType] is AND or absent returns true
    exactly when every one of its conditions evaluates to true, and when it
    returns false one of them evaluates to false. Both revisions. *)
Theorem and_transition_holds_iff_all_hold (t : Transition.t) (h : Heap) :
  Transition.combinationType t <> Some OR ->
  ((fst (Internal.evaluateTransition t h) = Returned true
    <-> forall c, In c (Transition.conditions t) ->
                  fst (Internal.evaluateCondition c h) = Returned true)
   /\ (fst (Internal.evaluateTransition t h) = Returned false ->
       exists c, In c (Transition.conditions t)
                 /\ fst (Internal.evaluateCondition c h) = Returned false))
  /\ ((fst (DateAware.evaluateTransition t h) = Returned true
       <-> forall c, In c (Transition.conditions t) ->
                     fst (DateAware.evaluateCondition c h) = Returned true)
      /\ (fst (DateAware.evaluateTransition t h) = Returned false ->
          exists c, In c (Transition.conditions t)
                    /\ fst (DateAware.evaluateCondition c h) = Returned false)).
Proof.
  intros Hand.
  unfold Internal.evaluateTransition, DateAware.evaluateTransition.
  destruct (Transition.combinationType t) as [[]|]; try contradiction;
    (split; split;
     [ apply every_true_iff | apply every_false_exists
     | apply every_true_iff | apply every_false_exists ];
     first [ exact Internal_evaluateCondition_reads_only
           | exact DateAware_evaluateCondition_reads_only ]).
Qed.

(** A transition whose [combinationType] is OR returns false exactly when
    every one of its conditions evaluates to false, and when it returns
    true one of them evaluates to true. Both revisions. *)
Theorem or_transition_fails_iff_all_fail (t : Transition.t) (h : Heap) :
  Transition.combinationType t = Some OR ->
  ((fst (Internal.evaluateTransition t h) = Returned false
    <-> forall c, In c (Transition.conditions t) ->
                  fst (Internal.evaluateCondition c h) = Returned false)
   /\ (fst (Internal.evaluateTransition t h) = Returned true ->
       exists c, In c (Transition.conditions t)
                 /\ fst (Internal.evaluateCondition c h) = Returned true))
  /\ ((fst (DateAware.evaluateTransition t h) = Returned false
       <-> forall c, In c (Transition.conditions t) ->
                     fst (DateAware.evaluateCondition c h) = Returned false)
      /\ (fst (DateAware.evaluateTransition t h) = Returned true ->
          exists c, In c (Transition.conditions t)
                    /\ fst (DateAware.evaluateCondition c h) = Returned true)).
Proof.
  intros Hor.
  unfold Internal.evaluateTransition, DateAware.evaluateTransition.
  rewrite Hor.
  split; split;
    [ apply some_false_iff | apply some_true_exists
    | apply some_false_iff | apply some_true_exists ];
    first [ exact Internal_evaluateCondition_reads_only
          | exact DateAware_evaluateCondition_reads_only ].
Qed.

(** The first condition that decides a transition ends its evaluation: an
    AND transition is false at the first false condition and an OR
    transition true at the first true one, whatever the conditions after
    it are; a MATCHES among them that would throw is never reached. Both
    revisions. *)
Theorem deciding_condition_ends_evaluation (pre rest : list Condition.t)
    (c : Condition.t) (next : string) (h : Heap) :
  ((forall p, In p pre -> fst (Internal.evaluateCondition p h) = Returned true) ->
   fst (Internal.evaluateCondition c h) = Returned false ->
   forall k, k <> Some OR ->
     fst (Internal.evaluateTransition (Transition.mk (pre ++ c :: rest) next k) h)
     = Returned false)
  /\ ((forall p, In p pre -> fst (Internal.evaluateCondition p h) = Returned false) ->
      fst (Internal.evaluateCondition c h) = Returned true ->
      fst (Internal.evaluateTransition (Transition.mk (pre ++ c :: rest) next (Some OR)) h)
      = Returned true)
  /\ ((forall p, In p pre -> fst (DateAware.evaluateCondition p h) = Returned true) ->
      fst (DateAware.evaluateCondition c h) = Returned false ->
      forall k, k <> Some OR ->
        fst (DateAware.evaluateTransition (Transition.mk (pre ++ c :: rest) next k) h)
        = Returned false)
  /\ ((forall p, In p pre -> fst (DateAware.evaluateCondition p h) = Returned false) ->
      fst (DateAware.evaluateCondition c h) = Returned true ->
      fst (DateAware.evaluateTransition (Transition.mk (pre ++ c :: rest) next (Some OR)) h)
      = Returned true).
Proof.
  unfold Internal.evaluateTransition, DateAware.evaluateTransition.
  cbn [Transition.combinationType Transition.conditions].
  repeat split.
  - intros Hpre Hc [[]|] Hk; try contradiction;
      apply every_stops_at_false; auto using Internal_evaluateCondition_reads_only.
  - intros Hpre Hc.
    apply some_stops_at_true; auto using Internal_evaluateCondition_reads_only.
  - intros Hpre Hc [[]|] Hk; try contradiction;
      apply every_stops_at_false; auto using DateAware_evaluateCondition_reads_only.
  - intros Hpre Hc.
    apply some_stops_at_true; auto using DateAware_evaluateCondition_reads_only.
Qed.

(** A MATCHES condition on a text response whose pattern the host cannot
    compile throws the constructor's SyntaxError, and so does every
    transition whose evaluation reaches it: an AND transition (or one with
    no [combinationType]) when every condition before it is true, an OR
    transition when every condition before it is false, whatever the
    conditions after it are. Both revisions. *)
Theorem matches_with_invalid_pattern_throws (pre rest : list Condition.t)
    (c : Condition.t) (next : string) (h : Heap)
    (response : QuestionResponse.t) (s : string) :
  responses h !! Condition.questionId c = Some response ->
  Condition.operator c = MATCHES ->
  QuestionResponse.value response = VStr s ->
  Condition.value c <> VUndefined ->
  RegExpCompile (ToString (Condition.value c)) = None ->
  let error := SyntaxError (ToString (Condition.value c)) in
  (Internal.evaluateCondition c h = (Thrown error, h)
   /\ DateAware.evaluateCondition c h = (Thrown error, h))
  /\ ((forall p, In p pre -> fst (Internal.evaluateCondition p h) = Returned true) ->
      forall k, k <> Some OR ->
        fst (Internal.evaluateTransition (Transition.mk (pre ++ c :: rest) next k) h)
        = Thrown error)
  /\ ((forall p, In p pre -> fst (Internal.evaluateCondition p h) = Returned false) ->
      fst (Internal.evaluateTransition (Transition.mk (pre ++ c :: rest) next (Some OR)) h)
      = Thrown error)
  /\ ((forall p, In p pre -> fst (DateAware.evaluateCondition p h) = Returned true) ->
      forall k, k <> Some OR ->
        fst (DateAware.evaluateTransition (Transition.mk (pre ++ c :: rest) next k) h)
        = Thrown error)
  /\ ((forall p, In p pre -> fst (DateAware.evaluateCondition p h) = Returned false) ->
      fst (DateAware.evaluateTransition (Transition.mk (pre ++ c :: rest) next (Some OR)) h)
      = Thrown error).
Proof.
  intros Hsome Hop Hrv Hcv Hbad error.
  assert (Hi : Internal.evaluateCondition c h = (Thrown error, h)).
  { step_condition_at Hsome. rewrite Hop, Hrv. unfold new_RegExp.
    destruct (Condition.value c); try contradiction; now rewrite Hbad. }
  assert (Hd : DateAware.evaluateCondition c h = (Thrown error, h)).
  { step_condition_at Hsome. rewrite Hop, Hrv. unfold new_RegExp.
    destruct (Condition.value c); try contradiction; now rewrite Hbad. }
  split; [now split|].
  unfold Internal.evaluateTransition, DateAware.evaluateTransition.
  cbn [Transition.combinationType Transition.conditions].
  repeat split.
  - intros Hpre [[]|] Hk; try contradiction;
      apply every_stops_at_throw;
      auto using Internal_evaluateCondition_reads_only; now rewrite Hi.
  - intros Hpre. apply some_stops_at_throw;
      auto using Internal_evaluateCondition_reads_only; now rewrite Hi.
  - intros Hpre [[]|] Hk; try contradiction;
      apply every_stops_at_throw;
      auto using DateAware_evaluateCondition_reads_only; now rewrite Hd.
  - intros Hpre. apply some_stops_at_throw;
      auto using DateAware_evaluateCondition_reads_only; now rewrite Hd.
Qed.

End TransitionFacts.

(** ** The comparison operators against each other *)

Section OperatorFacts.
Context {host : Host}.

Lemma compareValues_scalar_not_lt (rv cv : JsValue) :
  DateAware.is_scalar_value cv = true ->
  DateAware.compareValues rv cv = true ->
  date_or_numeric number_lt rv cv = false /\ date_or_numeric number_gt rv cv = false.
Proof.
  intros Hcv Heq. unfold number_gt.
  destruct cv as [| |b|y|t|r2 t2| |]; try discriminate Hcv;
    destruct rv as [| |a|x|s|r1 t1| |]; try discriminate Heq; cbn in Heq |- *.
  - apply Bool.eqb_prop in Heq. subst. split; apply number_lt_irrefl.
  - now apply number_eq_not_lt.
  - apply String.eqb_eq in Heq. subst. split; apply number_lt_irrefl.
  - now apply number_eq_not_lt.
Qed.

(** At most one of EQUALS, GREATER_THAN and LESS_THAN holds of a response
    and a value: a response is never both above and below the value, in
    either revision; one that EQUALS the value is neither above nor below
    it in [types.ts], and in the second revision when the value is a
    string, number, boolean or date. *)
Theorem equals_greater_less_exclude_each_other (c : Condition.t) (h : Heap) :
  (fst (Internal.evaluateCondition (with_operator GREATER_THAN c) h) = Returned true ->
   fst (Internal.evaluateCondition (with_operator LESS_THAN c) h) = Returned false)
  /\ (fst (DateAware.evaluateCondition (with_operator GREATER_THAN c) h) = Returned true ->
      fst (DateAware.evaluateCondition (with_operator LESS_THAN c) h) = Returned false)
  /\ (fst (Internal.evaluateCondition (with_operator EQUALS c) h) = Returned true ->
      fst (Internal.evaluateCondition (with_operator GREATER_THAN c) h) = Returned false
      /\ fst (Internal.evaluateCondition (with_operator LESS_THAN c) h) = Returned false)
  /\ (DateAware.is_scalar_value (Condition.value c) = true ->
      fst (DateAware.evaluateCondition (with_operator EQUALS c) h) = Returned true ->
      fst (DateAware.evaluateCondition (with_operator GREATER_THAN c) h) = Returned false
      /\ fst (DateAware.evaluateCondition (with_operator LESS_THAN c) h) = Returned false).
Proof.
  step_condition.
  cbn [with_operator Condition.questionId Condition.operator Condition.value
         Condition.additionalValue].
  destruct (responses h !! Condition.questionId c) as [response|];
    [|destruct (inherited (Condition.questionId c))]; cbn [fst].
  3: repeat split; try discriminate; reflexivity.
  all: match goal with
       | |- context [member_value ?m] => generalize (member_value m)
       end; intros rv; set (cv := Condition.value c).
  all: split; [|split; [|split]].
  1, 5: destruct rv; try discriminate; cbn [typeof_number andb];
    rewrite js_gt_number_l, js_lt_number_l; intros [= H]; f_equal;
    now apply number_lt_asym.
  1, 4: destruct rv, cv; cbn; intros [= H]; f_equal; now apply number_lt_asym.
  1, 3: intros [= Heq];
    destruct rv, cv; try discriminate Heq; cbn [typeof_number andb];
      try (split; reflexivity);
    rewrite js_gt_number_l, js_lt_number_l, ToNumber_VNum;
    apply number_eq_not_lt in Heq as [Hlt Hgt]; unfold number_gt, number_lt in *;
    now rewrite Hlt, Hgt.
  all: intros Hcv [= Heq];
    destruct (compareValues_scalar_not_lt rv cv Hcv Heq) as [Hlt Hgt];
    split; [rewrite <- Hgt | rewrite <- Hlt]; f_equal; destruct rv, cv; reflexivity.
Qed.

(** BETWEEN beyond numeric responses. In the second revision two numeric
    bounds compare with the response coerced to a number, two date bounds
    admit only a date response strictly between them, and any other pair
    of bounds gives false. In [types.ts] a response that is not a number
    is never BETWEEN anything. *)
Theorem between_takes_two_numbers_or_two_dates (c : Condition.t) (h : Heap)
    (response : QuestionResponse.t) :
  responses h !! Condition.questionId c = Some response ->
  Condition.operator c = BETWEEN ->
  let rv := QuestionResponse.value response in
  let cv := Condition.value c in
  let av := Condition.additionalValue c in
  (forall lo hi : number,
     cv = VNum lo -> av = VNum hi ->
     DateAware.evaluateCondition c h
     = (Returned (number_lt lo (ToNumber rv) && number_lt (ToNumber rv) hi), h))
  /\ (forall (r1 r2 : ref) (lo hi : number),
        cv = VDate r1 lo -> av = VDate r2 hi ->
        DateAware.evaluateCondition c h
        = (Returned match rv with
                    | VDate _ t => number_lt lo t && number_lt t hi
                    | _ => false
                    end, h))
  /\ (typeof_number cv && typeof_number av = false ->
      instanceof_Date cv && instanceof_Date av = false ->
      DateAware.evaluateCondition c h = (Returned false, h))
  /\ (typeof_number rv = false ->
      Internal.evaluateCondition c h = (Returned false, h)).
Proof.
  intros Hsome Hop rv cv av. repeat split.
  - intros lo hi Hcv Hav. step_condition_at Hsome. rewrite Hop.
    fold rv cv av. rewrite Hcv, Hav. cbn [typeof_number andb].
    now rewrite js_gt_number_l, js_lt_number_l, !ToNumber_VNum.
  - intros r1 r2 lo hi Hcv Hav. step_condition_at Hsome. rewrite Hop.
    fold rv cv av. rewrite Hcv, Hav. cbn [typeof_number instanceof_Date andb].
    destruct rv; reflexivity.
  - intros Hn Hd. step_condition_at Hsome. rewrite Hop. fold rv cv av.
    now rewrite Hn, Hd.
  - intros Hrv. step_condition_at Hsome. rewrite Hop. fold rv.
    now rewrite Hrv.
Qed.

End OperatorFacts.

(** ** More on the quiz validator *)

(** *** What a schema's verdict tells about the input *)

Lemma v_object_entry (entries : list (string * schema)) (input : JsValue)
    (key : string) (s : schema) :
  v_object entries input = true -> In (key, s) entries ->
  s (get_prop input key) = true.
Proof.
  unfold v_object. rewrite andb_true_iff, forallb_forall.
  intros [_ H] Hin. exact (H (key, s) Hin).
Qed.

Lemma v_string_inv (v : JsValue) : v_string v = true -> exists s, v = VStr s.
Proof. destruct v; try discriminate. eauto. Qed.

Lemma v_array_inv (item : schema) (v : JsValue) :
  v_array item v = true ->
  exists r items, v = VArr r items /\ forall x, In x items -> item x = true.
Proof.
  destruct v as [| | | | | |r items|]; try discriminate. cbn [v_array].
  rewrite forallb_forall. eauto.
Qed.

Lemma v_enum_inv (options : list string) (v : JsValue) :
  v_enum options v = true -> exists o, In o options /\ v = VStr o.
Proof.
  unfold v_enum. rewrite existsb_exists. intros (o & Hin & Ho).
  exists o. split; [exact Hin|].
  destruct v; try discriminate Ho. cbn in Ho. apply String.eqb_eq in Ho. now subst.
Qed.

Lemma ConditionOperatorEnumSchema_inv (v : JsValue) :
  ConditionOperatorEnumSchema v = true ->
  exists op, v = VStr (ConditionOperatorEnum_value op).
Proof.
  intros H. apply v_enum_inv in H as (o & Hin & ->). cbn [map In] in Hin.
  repeat (destruct Hin as [<-|Hin]; [eexists; reflexivity|]). contradiction.
Qed.

Lemma CombinationType_inv (v : JsValue) :
  v_optional CombinationTypeEnumSchema (Some (VStr (CombinationTypeEnum_value AND))) v = true ->
  v = VUndefined \/ exists k, v = VStr (CombinationTypeEnum_value k).
Proof.
  destruct v; try (now left); intros H; right;
    cbn [v_optional] in H; apply v_enum_inv in H as (o & Hin & E);
    try discriminate E.
  injection E as ->. cbn [map In] in Hin.
  repeat (destruct Hin as [<-|Hin]; [eexists; reflexivity|]). contradiction.
Qed.

(** An accepted condition value or bound has one of the declared types. *)
Lemma Internal_condition_value (v : JsValue) :
  v_union [v_string; v_number; v_boolean;
           v_array (v_union [v_string; v_number; v_boolean])] v = true ->
  Internal.is_condition_value v = true.
Proof.
  destruct v as [| |b|n|s|r t|r items|r props]; try discriminate; try reflexivity.
  cbn. rewrite !orb_false_r. intros H. apply forallb_forall.
  intros x Hx. rewrite forallb_forall in H. specialize (H x Hx).
  destruct x; try discriminate H; reflexivity.
Qed.

Lemma Internal_additional_value (v : JsValue) :
  v_optional (v_union [v_string; v_number]) None v = true ->
  Internal.is_additional_value v = true.
Proof. destruct v; try discriminate; reflexivity. Qed.

Lemma DateAware_condition_value (v : JsValue) :
  v_union [v_string; v_number; v_boolean; v_date;
           v_array (v_union [v_string; v_number; v_boolean; v_date])] v = true ->
  DateAware.is_condition_value v = true.
Proof.
  destruct v as [| |b|n|s|r t|r items|r props]; try discriminate; try reflexivity.
  cbn. rewrite !orb_false_r. intros H. apply forallb_forall.
  intros x Hx. rewrite forallb_forall in H. specialize (H x Hx).
  destruct x; try discriminate H; reflexivity.
Qed.

Lemma DateAware_additional_value (v : JsValue) :
  v_optional (v_union [v_string; v_number; v_date]) None v = true ->
  DateAware.is_additional_value v = true.
Proof. destruct v; try discriminate; reflexivity. Qed.

Lemma Internal_ConditionSchema_inv (c : JsValue) :
  Internal.ConditionSchema c = true ->
  exists (q : string) (op : ConditionOperatorEnum),
    get_prop c "questionId" = VStr q
    /\ get_prop c "operator" = VStr (ConditionOperatorEnum_value op)
    /\ Internal.well_typed
         (Condition.mk q op (get_prop c "value") (get_prop c "additionalValue")) = true.
Proof.
  intros H. unfold Internal.ConditionSchema in H.
  pose proof (v_object_entry _ _ "questionId" _ H (or_introl eq_refl)) as Hq.
  pose proof (v_object_entry _ _ "operator" _ H (or_intror (or_introl eq_refl))) as Ho.
  pose proof (v_object_entry _ _ "value" _ H
                (or_intror (or_intror (or_introl eq_refl)))) as Hv.
  pose proof (v_object_entry _ _ "additionalValue" _ H
                (or_intror (or_intror (or_intror (or_introl eq_refl))))) as Ha.
  apply v_string_inv in Hq as [q Hq].
  apply ConditionOperatorEnumSchema_inv in Ho as [op Ho].
  exists q, op. repeat split; try assumption.
  unfold Internal.well_typed. cbn [Condition.value Condition.additionalValue].
  now rewrite (Internal_condition_value _ Hv), (Internal_additional_value _ Ha).
Qed.

Lemma DateAware_ConditionSchema_inv (c : JsValue) :
  DateAware.ConditionSchema c = true ->
  exists (q : string) (op : ConditionOperatorEnum),
    get_prop c "questionId" = VStr q
    /\ get_prop c "operator" = VStr (ConditionOperatorEnum_value op)
    /\ DateAware.well_typed
         (Condition.mk q op (get_prop c "value") (get_prop c "additionalValue")) = true.
Proof.
  intros H. unfold DateAware.ConditionSchema in H.
  pose proof (v_object_entry _ _ "questionId" _ H (or_introl eq_refl)) as Hq.
  pose proof (v_object_entry _ _ "operator" _ H (or_intror (or_introl eq_refl))) as Ho.
  pose proof (v_object_entry _ _ "value" _ H
                (or_intror (or_intror (or_introl eq_refl)))) as Hv.
  pose proof (v_object_entry _ _ "additionalValue" _ H
                (or_intror (or_intror (or_intror (or_introl eq_refl))))) as Ha.
  apply v_string_inv in Hq as [q Hq].
  apply ConditionOperatorEnumSchema_inv in Ho as [op Ho].
  exists q, op. repeat split; try assumption.
  unfold DateAware.well_typed. cbn [Condition.value Condition.additionalValue].
  now rewrite (DateAware_condition_value _ Hv), (DateAware_additional_value _ Ha).
Qed.

Section Shape.
Variable RatingValidationSchema ConditionSchema : schema.

Lemma QuizSchema_nodes (quiz : JsValue) :
  QuizSchema_of RatingValidationSchema ConditionSchema quiz = true ->
  exists r nodes,
    get_prop quiz "nodes" = VArr r nodes
    /\ forall node, In node nodes ->
         NodeSchema_of RatingValidationSchema ConditionSchema node = true.
Proof.
  intros H. apply v_array_inv.
  apply (v_object_entry _ _ "nodes" _ H). cbn [In]. tauto.
Qed.

Lemma NodeSchema_transitions (node : JsValue) :
  NodeSchema_of RatingValidationSchema ConditionSchema node = true ->
  exists r transitions,
    get_prop node "transitions" = VArr r transitions
    /\ forall transition, In transition transitions ->
         TransitionSchema_of ConditionSchema transition = true.
Proof.
  intros H. apply v_array_inv.
  apply (v_object_entry _ _ "transitions" _ H). cbn [In]. tauto.
Qed.

Lemma TransitionSchema_conditions (transition : JsValue) :
  TransitionSchema_of ConditionSchema transition = true ->
  exists r conditions,
    get_prop transition "conditions" = VArr r conditions
    /\ forall c, In c conditions -> ConditionSchema c = true.
Proof.
  intros H. apply v_array_inv.
  apply (v_object_entry _ _ "conditions" _ H). cbn [In]. tauto.
Qed.

Lemma QuizSchema_conditions (quiz c : JsValue) :
  QuizSchema_of RatingValidationSchema ConditionSchema quiz = true ->
  In c (conditions_of quiz) -> ConditionSchema c = true.
Proof.
  intros H Hc. unfold conditions_of in Hc.
  apply in_flat_map in Hc as (node & Hnode & Hc).
  apply in_flat_map in Hc as (transition & Htr & Hc).
  destruct (QuizSchema_nodes quiz H) as (r & nodes & En & Hn).
  rewrite En in Hnode. cbn [items_of] in Hnode.
  destruct (NodeSchema_transitions node (Hn node Hnode)) as (r' & trs & Et & Ht).
  rewrite Et in Htr. cbn [items_of] in Htr.
  destruct (TransitionSchema_conditions transition (Ht transition Htr))
    as (r'' & cs & Ec & Hcs).
  rewrite Ec in Hc. cbn [items_of] in Hc. now apply Hcs.
Qed.

End Shape.

Lemma validateQuiz_of_true (R C : schema) (quiz : JsValue) (console : Console) :
  fst (validateQuiz_of R C quiz console) = Returned true ->
  QuizSchema_of R C quiz = true.
Proof.
  rewrite validateQuiz_of_spec. destruct (QuizSchema_of R C quiz); [reflexivity|discriminate].
Qed.

(** Every condition of a quiz that [validateQuiz] accepts can be handed to
    the evaluator: its [questionId] is a string, its [operator] is one of
    the eight operators, and its [value] and [additionalValue] have the
    types the revision declares. Both revisions. *)
Theorem accepted_conditions_are_well_typed (quiz : JsValue) (console : Console)
    (c : JsValue) :
  In c (conditions_of quiz) ->
  (fst (Internal.validateQuiz quiz console) = Returned true ->
   exists (q : string) (op : ConditionOperatorEnum),
     get_prop c "questionId" = VStr q
     /\ get_prop c "operator" = VStr (ConditionOperatorEnum_value op)
     /\ Internal.well_typed
          (Condition.mk q op (get_prop c "value") (get_prop c "additionalValue")) = true)
  /\ (fst (DateAware.validateQuiz quiz console) = Returned true ->
      exists (q : string) (op : ConditionOperatorEnum),
        get_prop c "questionId" = VStr q
        /\ get_prop c "operator" = VStr (ConditionOperatorEnum_value op)
        /\ DateAware.well_typed
             (Condition.mk q op (get_prop c "value") (get_prop c "additionalValue")) = true).
Proof.
  intros Hc. split; intros H; apply validateQuiz_of_true in H.
  - apply Internal_ConditionSchema_inv. exact (QuizSchema_conditions _ _ quiz c H Hc).
  - apply DateAware_ConditionSchema_inv. exact (QuizSchema_conditions _ _ quiz c H Hc).
Qed.

Lemma v_optional_boolean_inv (v : JsValue) :
  v_optional v_boolean None v = true -> is_optional_boolean v.
Proof.
  destruct v; try discriminate; intros _; [now left | right; eauto].
Qed.

Section ShapeOfAccepted.
Variable RatingValidationSchema ConditionSchema : schema.

Lemma TransitionSchema_shape (transition : JsValue) :
  TransitionSchema_of ConditionSchema transition = true -> transition_shape transition.
Proof.
  intros H.
  pose proof (v_object_entry _ _ "conditions" _ H (or_introl eq_refl)) as Hc.
  pose proof (v_object_entry _ _ "nextNodeId" _ H (or_intror (or_introl eq_refl))) as Hn.
  pose proof (v_object_entry _ _ "combinationType" _ H
                (or_intror (or_intror (or_introl eq_refl)))) as Hk.
  apply v_string_inv in Hn as [target Hn].
  apply v_array_inv in Hc as (r & conditions & Hc & _).
  apply CombinationType_inv in Hk.
  exists target, r, conditions. auto.
Qed.

Lemma NodeSchema_shape (node : JsValue) :
  NodeSchema_of RatingValidationSchema ConditionSchema node = true -> node_shape node.
Proof.
  intros H.
  assert (Hin : forall key s,
             In (key, s)
               [("id", v_string); ("title", v_string);
                ("questions", v_array (QuestionSchema_of RatingValidationSchema));
                ("transitions", v_array (TransitionSchema_of ConditionSchema));
                ("isStart", v_optional v_boolean None);
                ("isEnd", v_optional v_boolean None)] ->
             s (get_prop node key) = true).
  { intros key s Hks. apply (v_object_entry _ _ key s H).
    cbn [In] in Hks |- *. tauto. }
  pose proof (Hin "id" _ (or_introl eq_refl)) as Hid.
  pose proof (Hin "title" _ (or_intror (or_introl eq_refl))) as Htitle.
  pose proof (Hin "questions" _ (or_intror (or_intror (or_introl eq_refl)))) as Hq.
  pose proof (Hin "transitions" _
                (or_intror (or_intror (or_intror (or_introl eq_refl))))) as Ht.
  pose proof (Hin "isStart" _
                (or_intror (or_intror (or_intror (or_intror (or_introl eq_refl)))))) as Hs.
  pose proof (Hin "isEnd" _
                (or_intror (or_intror (or_intror (or_intror
                   (or_intror (or_introl eq_refl))))))) as He.
  apply v_string_inv in Hid as [id Hid]. apply v_string_inv in Htitle as [title Htitle].
  apply v_array_inv in Hq as (rq & questions & Hq & _).
  apply v_array_inv in Ht as (rt & transitions & Ht & Hts).
  exists id, title, rq, rt, questions, transitions.
  repeat split; try assumption; try now apply v_optional_boolean_inv.
  apply List.Forall_forall. intros tr Htr. apply TransitionSchema_shape. now apply Hts.
Qed.

Lemma QuizSchema_shape (quiz : JsValue) :
  QuizSchema_of RatingValidationSchema ConditionSchema quiz = true -> quiz_shape quiz.
Proof.
  intros H.
  assert (Hin : forall key s,
             In (key, s)
               [("id", v_string); ("title", v_string); ("version", v_string);
                ("nodes", v_array (NodeSchema_of RatingValidationSchema ConditionSchema))] ->
             s (get_prop quiz key) = true).
  { intros key s Hks. apply (v_object_entry _ _ key s H).
    cbn [In] in Hks |- *. tauto. }
  pose proof (Hin "id" _ (or_introl eq_refl)) as Hid.
  pose proof (Hin "title" _ (or_intror (or_introl eq_refl))) as Htitle.
  pose proof (Hin "version" _ (or_intror (or_intror (or_introl eq_refl)))) as Hv.
  pose proof (Hin "nodes" _
                (or_intror (or_intror (or_intror (or_introl eq_refl))))) as Hn.
  apply v_string_inv in Hid as [id Hid]. apply v_string_inv in Htitle as [title Htitle].
  apply v_string_inv in Hv as [version Hv].
  apply v_array_inv in Hn as (r & nodes & Hn & Hns).
  exists id, title, version, r, nodes. repeat split; try assumption.
  apply List.Forall_forall. intros node Hnode. apply NodeSchema_shape. now apply Hns.
Qed.

End ShapeOfAccepted.

(** A quiz that [validateQuiz] accepts has the shape the engine reads: a
    string [id], [title] and [version] and an array of nodes; every node a
    string [id] and [title], arrays of questions and transitions and
    boolean or absent [isStart] and [isEnd]; every transition a string
    [nextNodeId], an array of conditions and a [combinationType] that is
    absent, AND or OR. In particular a value that is not an object, or that
    lacks one of these, is rejected. Both revisions. *)
Theorem accepted_quiz_has_the_shape (quiz : JsValue) (console : Console) :
  fst (Internal.validateQuiz quiz console) = Returned true
  \/ fst (DateAware.validateQuiz quiz console) = Returned true ->
  quiz_shape quiz.
Proof.
  intros [H|H]; apply validateQuiz_of_true in H; exact (QuizSchema_shape _ _ quiz H).
Qed.

(** *** What the validator does not look at *)

Lemma lookup_prop_skip (key key' : string) (v : JsValue)
    (p1 p2 : list (string * JsValue)) :
  key <> key' ->
  lookup_prop key' (p1 ++ (key, v) :: p2)%list = lookup_prop key' (p1 ++ p2)%list.
Proof.
  intros Hne. induction p1 as [|[k x] p1 IH]; cbn [app lookup_prop].
  - destruct (String.eqb_spec key key'); [contradiction|reflexivity].
  - now rewrite IH.
Qed.

(** An object schema does not see a property it does not name. *)
Lemma v_object_ignores_unknown (entries : list (string * schema)) (key : string)
    (v : JsValue) (r : ref) (p1 p2 : list (string * JsValue)) :
  ~ In key (map fst entries) ->
  v_object entries (VObj r (p1 ++ (key, v) :: p2)%list)
  = v_object entries (VObj r (p1 ++ p2)%list).
Proof.
  intros Hkey. unfold v_object. cbn [is_object andb get_prop].
  induction entries as [|[k s] entries IH]; [reflexivity|].
  cbn [forallb fst snd map In] in *.
  rewrite IH by tauto. f_equal. rewrite lookup_prop_skip; [reflexivity|].
  intros ->. apply Hkey. now left.
Qed.

(** A property that [QuizSchema] does not name changes nothing: the quiz
    with the property and the quiz without it get the same verdict and the
    same log, whatever the property holds. Both revisions. *)
Theorem validateQuiz_ignores_unknown_properties (key : string) (v : JsValue)
    (r : ref) (p1 p2 : list (string * JsValue)) (console : Console) :
  ~ In key quiz_keys ->
  Internal.validateQuiz (VObj r (p1 ++ (key, v) :: p2)%list) console
  = Internal.validateQuiz (VObj r (p1 ++ p2)%list) console
  /\ DateAware.validateQuiz (VObj r (p1 ++ (key, v) :: p2)%list) console
     = DateAware.validateQuiz (VObj r (p1 ++ p2)%list) console.
Proof.
  intros Hkey. unfold Internal.validateQuiz, DateAware.validateQuiz.
  rewrite !validateQuiz_of_spec. unfold QuizSchema_of.
  rewrite !(v_object_ignores_unknown _ key v r p1 p2) by exact Hkey.
  now split.
Qed.

Section Relabel.
Variable RatingValidationSchema ConditionSchema : schema.
Variable f : string -> string.
Variable start finish : bool -> bool.

Lemma NodeSchema_relabel (node : JsValue) :
  NodeSchema_of RatingValidationSchema ConditionSchema (relabel_node f start finish node)
  = NodeSchema_of RatingValidationSchema ConditionSchema node.
Proof.
  unfold relabel_node, NodeSchema_of.
  rewrite v_object_update_prop;
    [|reflexivity|intros s x H; pick_entry H; now destruct x].
  rewrite v_object_update_prop;
    [|reflexivity|intros s x H; pick_entry H; now destruct x].
  rewrite v_object_update_prop;
    [|reflexivity|intros s x H; pick_entry H; now destruct x].
  reflexivity.
Qed.

Lemma QuizSchema_relabel (quiz : JsValue) :
  QuizSchema_of RatingValidationSchema ConditionSchema (relabel f start finish quiz)
  = QuizSchema_of RatingValidationSchema ConditionSchema quiz.
Proof.
  apply v_object_update_prop; [reflexivity|].
  intros s x H. pick_entry H.
  apply v_array_map_items, NodeSchema_relabel.
Qed.

End Relabel.

(** [validateQuiz] looks neither at which ids the nodes carry nor at which
    nodes are flagged as start or end: renaming every node id and
    rewriting every [isStart] and [isEnd] flag leaves its result and its
    log unchanged. So it accepts a quiz whose nodes share one id, and a
    quiz with no start node or several, whenever it accepts the quiz they
    were made from. Both revisions. *)
Theorem validateQuiz_ignores_ids_and_flags (f : string -> string)
    (start finish : bool -> bool) (quiz : JsValue) (console : Console) :
  Internal.validateQuiz (relabel f start finish quiz) console
  = Internal.validateQuiz quiz console
  /\ DateAware.validateQuiz (relabel f start finish quiz) console
     = DateAware.validateQuiz quiz console.
Proof.
  unfold Internal.validateQuiz, DateAware.validateQuiz.
  rewrite !validateQuiz_of_spec, !QuizSchema_relabel. now split.
Qed.

(** ** Questions and responses *)

Lemma v_literal_inv (literal : string) (v : JsValue) :
  v_literal literal v = true -> v = VStr literal.
Proof. apply strict_equals_string. Qed.

(** A question that [QuestionSchema] accepts has a string [id] and one of
    the ten types. *)
Lemma QuestionSchema_inv (R : schema) (question : JsValue) :
  QuestionSchema_of R question = true ->
  (exists id, get_prop question "id" = VStr id)
  /\ QuestionTypeEnumSchema (get_prop question "type") = true.
Proof.
  unfold QuestionSchema_of, v_union. cbn [existsb]. rewrite !orb_true_iff.
  intros H.
  repeat (destruct H as [H|H]); try discriminate H;
    (split;
     [ apply v_string_inv; apply (v_object_entry _ _ "id" _ H); now left
     | match type of H with
       | v_object (app _ (("type", v_literal ?l) :: _)) _ = true =>
           rewrite (v_literal_inv l _
                      (v_object_entry _ _ "type" (v_literal l) H
                         (or_intror (or_intror (or_intror (or_intror (or_introl eq_refl)))))));
           reflexivity
       end ]).
Qed.

(** It is an object, so neither null nor undefined. *)
Lemma QuestionSchema_is_object (R : schema) (question : JsValue) :
  QuestionSchema_of R question = true -> is_object question = true.
Proof.
  unfold QuestionSchema_of, v_union. cbn [existsb]. rewrite !orb_true_iff.
  intros H.
  repeat (destruct H as [H|H]); try discriminate H;
    unfold v_object in H; apply andb_true_iff in H as [H _]; exact H.
Qed.

(** Past the read of [question.type], [getValueSchemaForQuestion] is the
    [switch] on the type. *)
Lemma getValueSchemaForQuestion_on_the_ten_types (question : JsValue) :
  question <> VUndefined -> question <> VNull ->
  QuestionTypeEnumSchema (get_prop question "type") = true ->
  exists s, Internal.getValueSchemaForQuestion question = inl s.
Proof.
  intros Hu Hn H. apply v_enum_inv in H as (o & Hin & E).
  cbn [QuestionTypeEnum In] in Hin.
  unfold Internal.getValueSchemaForQuestion.
  destruct question; try congruence; rewrite E;
    repeat (destruct Hin as [<-|Hin]; [cbn; eexists; reflexivity|]); contradiction.
Qed.

Lemma getValueSchemaForQuestion_returns (question : JsValue) :
  Internal.QuestionSchema question = true ->
  exists s, Internal.getValueSchemaForQuestion question = inl s.
Proof.
  intros H.
  pose proof (QuestionSchema_is_object Internal.RatingValidationSchema question H) as Ho.
  apply getValueSchemaForQuestion_on_the_ten_types.
  - intros ->. discriminate Ho.
  - intros ->. discriminate Ho.
  - exact (proj2 (QuestionSchema_inv Internal.RatingValidationSchema question H)).
Qed.

(** [getValueSchemaForQuestion] throws a TypeError on null and undefined,
    whose [type] cannot be read. On anything else it returns a schema
    exactly when the [type] is one of the ten, and throws its Error with
    the offending type otherwise. So it returns on every question that
    [QuestionSchema] accepts. *)
Theorem getValueSchemaForQuestion_returns_on_the_ten_types_only (question : JsValue) :
  (question = VUndefined \/ question = VNull ->
   Internal.getValueSchemaForQuestion question = inr TypeError)
  /\ (question <> VUndefined -> question <> VNull ->
      (QuestionTypeEnumSchema (get_prop question "type") = true
       <-> exists s, Internal.getValueSchemaForQuestion question = inl s)
      /\ (QuestionTypeEnumSchema (get_prop question "type") = false ->
          Internal.getValueSchemaForQuestion question
          = inr (UnknownQuestionType (get_prop question "type"))))
  /\ (Internal.QuestionSchema question = true ->
      exists s, Internal.getValueSchemaForQuestion question = inl s).
Proof.
  split; [|split].
  - intros [-> | ->]; reflexivity.
  - intros Hu Hn.
    assert (Hswitch : Internal.getValueSchemaForQuestion question
                      = let type := get_prop question "type" in
                        if strict_equals type (VStr "text") then inl v_string
                        else if strict_equals type (VStr "number") then inl v_number
                        else if strict_equals type (VStr "select") then inl v_string
                        else if strict_equals type (VStr "multiSelect")
                             then inl (v_array v_string)
                        else if strict_equals type (VStr "checkbox") then inl v_boolean
                        else if strict_equals type (VStr "checkboxGroup")
                             then inl (v_array v_string)
                        else if strict_equals type (VStr "date") then inl v_date
                        else if strict_equals type (VStr "rating") then inl v_number
                        else if strict_equals type (VStr "file") then
                          inl (if truthy (get_prop question "multiple")
                               then v_array v_unknown else v_unknown)
                        else if strict_equals type (VStr "signature") then inl v_string
                        else inr (UnknownQuestionType type)).
    { destruct question; try congruence; reflexivity. }
    cbv zeta in Hswitch.
    split; [split|].
    + apply getValueSchemaForQuestion_on_the_ten_types; assumption.
    + intros [s Hs]. rewrite Hswitch in Hs.
      repeat match type of Hs with
             | (if strict_equals ?t (VStr ?l) then _ else _) = _ =>
                 let E := fresh "E" in
                 destruct (strict_equals t (VStr l)) eqn:E;
                 [apply strict_equals_string in E; rewrite E; reflexivity|]
             end.
      discriminate Hs.
    + intros Hno. rewrite Hswitch.
      repeat match goal with
             | |- (if strict_equals ?t (VStr ?l) then _ else _) = _ =>
                 let E := fresh "E" in
                 destruct (strict_equals t (VStr l)) eqn:E;
                 [apply strict_equals_string in E; rewrite E in Hno; discriminate Hno|]
             end.
      reflexivity.
  - apply getValueSchemaForQuestion_returns.
Qed.

(** Exactly one of the ten type guards holds of a question that
    [QuestionSchema] accepts. *)
Theorem one_type_guard_holds (question : JsValue) :
  Internal.QuestionSchema question = true ->
  length (List.filter (fun guard => guard question) Internal.type_guards) = 1.
Proof.
  intros H. apply (QuestionSchema_inv Internal.RatingValidationSchema) in H as [_ H].
  apply v_enum_inv in H as (o & Hin & E). cbn [QuestionTypeEnum In] in Hin.
  unfold Internal.type_guards, Internal.isTextQuestion, Internal.isNumberQuestion,
    Internal.isSelectQuestion, Internal.isMultiSelectQuestion,
    Internal.isCheckboxQuestion, Internal.isCheckboxGroupQuestion,
    Internal.isDateQuestion, Internal.isRatingQuestion, Internal.isFileQuestion,
    Internal.isSignatureQuestion.
  cbn [List.filter]. rewrite E.
  repeat (destruct Hin as [<-|Hin]; [reflexivity|]). contradiction.
Qed.

(** What [createResponse] returns, arguments left out or not. *)
Lemma createResponse_returns (question value isValid validationErrors : JsValue)
    (rt : Runtime) :
  is_object question = true ->
  v_optional v_boolean None isValid = true ->
  v_optional (v_array v_string) None validationErrors = true ->
  exists (r r' : ref) (b : bool) (errors : JsValue) (rt' : Runtime),
    createResponse question value isValid validationErrors rt
    = (Returned (VObj r [("questionId", get_prop question "id");
                         ("value", value);
                         ("timestamp", VDate r' (clock rt));
                         ("isValid", VBool b);
                         ("validationErrors", errors)]), rt')
    /\ v_array v_string errors = true
    /\ clock rt' = clock rt.
Proof.
  intros Ho Hv He.
  destruct question; try discriminate Ho;
    destruct isValid; try discriminate Hv;
    destruct validationErrors; try discriminate He;
    unfold createResponse, read_prop, bind, ret, new_Date, fresh; cbn;
    repeat eexists; try reflexivity; exact He.
Qed.

(** In [types.ts], the response [createResponse] builds for an accepted
    question conforms to the question's response schema exactly when the
    value conforms to the question's value schema. *)
Theorem created_response_conforms_iff_value_does
    (question value isValid validationErrors : JsValue) (rt : Runtime) :
  Internal.QuestionSchema question = true ->
  isNaN (clock rt) = false ->
  v_optional v_boolean None isValid = true ->
  v_optional (v_array v_string) None validationErrors = true ->
  exists (response_schema value_schema : schema) (response : JsValue) (rt' : Runtime),
    Internal.createQuestionResponseSchema question = inl response_schema
    /\ Internal.getValueSchemaForQuestion question = inl value_schema
    /\ createResponse question value isValid validationErrors rt = (Returned response, rt')
    /\ response_schema response = value_schema value.
Proof.
  intros Hq Hclock Hv He.
  pose proof (QuestionSchema_is_object Internal.RatingValidationSchema question Hq) as Ho.
  destruct (QuestionSchema_inv Internal.RatingValidationSchema question Hq)
    as [[id Hid] Htype].
  assert (Hs : exists s, Internal.getValueSchemaForQuestion question = inl s).
  { apply getValueSchemaForQuestion_returns. exact Hq. }
  destruct Hs as [vs Hvs].
  destruct (createResponse_returns question value isValid validationErrors rt Ho Hv He)
    as (r & r' & b & errors & rt' & Hc & Herr & _).
  unfold Internal.createQuestionResponseSchema. rewrite Hvs.
  eexists; exists vs; eexists; exists rt'.
  split; [reflexivity|]. split; [reflexivity|]. split; [exact Hc|].
  unfold v_object. cbn. rewrite Hid, Hclock. cbn.
  destruct errors; try discriminate Herr. cbn in Herr |- *. rewrite Herr.
  now rewrite !andb_true_r.
Qed.

(** In the second revision, the response [createResponse] builds for an
    accepted question conforms to [QuestionResponseSchema] exactly when the
    value is a string, a number other than NaN, a boolean, a valid date, an
    array of those, or null. A File, or an array holding one, which is what
    a file question is answered with, never conforms. *)
Theorem created_response_conforms_unless_file
    (question value isValid validationErrors : JsValue) (rt : Runtime) :
  DateAware.QuestionSchema question = true ->
  isNaN (clock rt) = false ->
  v_optional v_boolean None isValid = true ->
  v_optional (v_array v_string) None validationErrors = true ->
  exists (response : JsValue) (rt' : Runtime),
    createResponse question value isValid validationErrors rt = (Returned response, rt')
    /\ DateAware.QuestionResponseSchema response
       = v_union [v_string; v_number; v_boolean; v_date;
                  v_array (v_union [v_string; v_number; v_boolean; v_date]);
                  v_null] value
    /\ (forall r props, value = VObj r props ->
        DateAware.QuestionResponseSchema response = false)
    /\ (forall r r' props rest, value = VArr r (VObj r' props :: rest) ->
        DateAware.QuestionResponseSchema response = false).
Proof.
  intros Hq Hclock Hv He.
  pose proof (QuestionSchema_is_object DateAware.RatingValidationSchema question Hq) as Ho.
  destruct (QuestionSchema_inv DateAware.RatingValidationSchema question Hq)
    as [[id Hid] _].
  destruct (createResponse_returns question value isValid validationErrors rt Ho Hv He)
    as (r & r' & b & errors & rt' & Hc & Herr & _).
  eexists; exists rt'. split; [exact Hc|].
  assert (E : DateAware.QuestionResponseSchema
                (VObj r [("questionId", get_prop question "id"); ("value", value);
                         ("timestamp", VDate r' (clock rt)); ("isValid", VBool b);
                         ("validationErrors", errors)])
              = v_union [v_string; v_number; v_boolean; v_date;
                         v_array (v_union [v_string; v_number; v_boolean; v_date]);
                         v_null] value).
  { unfold DateAware.QuestionResponseSchema, v_object.
    cbn [is_object andb forallb fst snd get_prop lookup_prop String.eqb Ascii.eqb Bool.eqb].
    rewrite Hid. cbn [v_string typeof_string v_date v_boolean typeof_boolean andb].
    rewrite Hclock. cbn [negb andb].
    destruct errors; try discriminate Herr. cbn [v_optional]. rewrite Herr.
    now rewrite !andb_true_r. }
  split; [exact E|]. split.
  - intros r0 props ->. rewrite E. reflexivity.
  - intros r0 r1 props rest ->. rewrite E. reflexivity.
Qed.

(** In the second revision, [QuizStateSchema] rejects every run state whose
    [responses] hold, under an ordinary key, a response whose value is a
    File: the answers to a file question cannot be part of a state that
    conforms. *)
Theorem state_with_a_file_response_is_rejected (state response : JsValue)
    (key : string) (r : ref) (props : list (string * JsValue)) :
  In (key, response) (own_entries (get_prop state "responses")) ->
  get_prop response "value" = VObj r props ->
  DateAware.QuizStateSchema state = false.
Proof.
  intros Hin Hvalue.
  destruct (DateAware.QuizStateSchema state) eqn:H; [|reflexivity].
  pose proof (v_object_entry _ _ "responses" _ H
                (or_intror (or_intror (or_intror (or_introl eq_refl))))) as Hr.
  unfold v_record in Hr. apply andb_true_iff in Hr as [_ Hr].
  rewrite forallb_forall in Hr. specialize (Hr _ Hin).
  apply andb_true_iff in Hr as [_ Hr]. cbn [snd] in Hr.
  pose proof (v_object_entry _ _ "value" _ Hr (or_intror (or_introl eq_refl))) as Hv.
  rewrite Hvalue in Hv. discriminate Hv.
Qed.

(** ** Further concrete cases *)

(** The answer ["tea"; "milk"] contains "tea". *)
Lemma contains_is_membership_witness :
  responses (heap_with "drinks" (VArr 5%positive [VStr "tea"; VStr "milk"]))
    !! Condition.questionId likes_tea
  = Some (answer "drinks" (VArr 5%positive [VStr "tea"; VStr "milk"]))
  /\ exists b : bool,
       (b = true <-> In (VStr "tea") [VStr "tea"; VStr "milk"])
       /\ Internal.evaluateCondition (host := example_host)
            (with_operator CONTAINS likes_tea)
            (heap_with "drinks" (VArr 5%positive [VStr "tea"; VStr "milk"]))
          = (Returned b, heap_with "drinks" (VArr 5%positive [VStr "tea"; VStr "milk"]))
       /\ Internal.evaluateCondition (host := example_host)
            (with_operator NOT_CONTAINS likes_tea)
            (heap_with "drinks" (VArr 5%positive [VStr "tea"; VStr "milk"]))
          = (Returned (negb b), heap_with "drinks" (VArr 5%positive [VStr "tea"; VStr "milk"]))
       /\ DateAware.evaluateCondition (host := example_host)
            (with_operator CONTAINS likes_tea)
            (heap_with "drinks" (VArr 5%positive [VStr "tea"; VStr "milk"]))
          = (Returned b, heap_with "drinks" (VArr 5%positive [VStr "tea"; VStr "milk"]))
       /\ DateAware.evaluateCondition (host := example_host)
            (with_operator NOT_CONTAINS likes_tea)
            (heap_with "drinks" (VArr 5%positive [VStr "tea"; VStr "milk"]))
          = (Returned (negb b), heap_with "drinks" (VArr 5%positive [VStr "tea"; VStr "milk"])).
Proof.
  assert (Hsome : responses (heap_with "drinks" (VArr 5%positive [VStr "tea"; VStr "milk"]))
                    !! Condition.questionId likes_tea
                  = Some (answer "drinks" (VArr 5%positive [VStr "tea"; VStr "milk"])))
    by (vm_compute; reflexivity).
  split; [exact Hsome|].
  exact (@contains_is_membership example_host likes_tea _ _ 5%positive
           [VStr "tea"; VStr "milk"] "tea" Hsome eq_refl eq_refl).
Defined.

(** MATCHES with the pattern ["("] on the numeric answer 10 is false and
    throws nothing. *)
Lemma matches_needs_a_string_witness :
  responses two_answers !! "age" = Some (answer "age" (VNum (number_of_Z 10)))
  /\ RegExpCompile (Host := example_host) "(" = None
  /\ Internal.evaluateCondition (host := example_host)
       (Condition.mk "age" MATCHES (VStr "(") VUndefined) two_answers
     = (Returned false, two_answers)
  /\ DateAware.evaluateCondition (host := example_host)
       (Condition.mk "age" MATCHES (VStr "(") VUndefined) two_answers
     = (Returned false, two_answers).
Proof.
  assert (Hsome : responses two_answers !! "age"
                  = Some (answer "age" (VNum (number_of_Z 10))))
    by (vm_compute; reflexivity).
  split; [exact Hsome|]. split; [reflexivity|].
  exact (@matches_needs_a_string example_host
           (Condition.mk "age" MATCHES (VStr "(") VUndefined) two_answers _
           Hsome eq_refl eq_refl).
Defined.

(** A transition of two comparisons returns and allocates nothing. *)
Lemma transition_without_regexp_returns_witness :
  (forall c, In c [older_than_18; between_18_and_65] -> Condition.operator c <> MATCHES)
  /\ (exists b, Internal.evaluateTransition (host := example_host)
                  (Transition.mk [older_than_18; between_18_and_65] "B" None) two_answers
                = (Returned b, two_answers))
  /\ (exists b, DateAware.evaluateTransition (host := example_host)
                  (Transition.mk [older_than_18; between_18_and_65] "B" None) two_answers
                = (Returned b, two_answers)).
Proof.
  assert (Hop : forall c, In c [older_than_18; between_18_and_65] ->
                          Condition.operator c <> MATCHES).
  { intros c [<-|[<-|[]]]; discriminate. }
  split; [exact Hop|].
  exact (@transition_without_regexp_returns example_host
           (Transition.mk [older_than_18; between_18_and_65] "B" None) two_answers Hop).
Defined.

(** The answer 20 satisfies both [age > 18] and [18 < age < 65]. *)
Lemma and_transition_holds_iff_all_hold_witness :
  Transition.combinationType (Transition.mk [older_than_18; between_18_and_65] "B" None)
  <> Some OR
  /\ fst (Internal.evaluateTransition (host := example_host)
            (Transition.mk [older_than_18; between_18_and_65] "B" None)
            (heap_with "age" (VNum (number_of_Z 20))))
     = Returned true.
Proof.
  assert (Hk : Transition.combinationType
                 (Transition.mk [older_than_18; between_18_and_65] "B" None) <> Some OR)
    by discriminate.
  split; [exact Hk|].
  apply (proj1 (@and_transition_holds_iff_all_hold example_host
                  (Transition.mk [older_than_18; between_18_and_65] "B" None)
                  (heap_with "age" (VNum (number_of_Z 20))) Hk)).
  intros c [<-|[<-|[]]]; vm_compute; reflexivity.
Defined.

(** The answer 10 satisfies neither [age > 18] nor [18 < age < 65]. *)
Lemma or_transition_fails_iff_all_fail_witness :
  Transition.combinationType
    (Transition.mk [older_than_18; between_18_and_65] "B" (Some OR)) = Some OR
  /\ fst (DateAware.evaluateTransition (host := example_host)
            (Transition.mk [older_than_18; between_18_and_65] "B" (Some OR)) two_answers)
     = Returned false.
Proof.
  split; [reflexivity|].
  apply (proj2 (@or_transition_fails_iff_all_fail example_host
                  (Transition.mk [older_than_18; between_18_and_65] "B" (Some OR))
                  two_answers eq_refl)).
  intros c [<-|[<-|[]]]; vm_compute; reflexivity.
Defined.

(** With the answers 10 and "Ada": [age > 18] before a MATCHES on the
    pattern ["("] gives false; the MATCHES first throws. *)
Lemma deciding_condition_ends_evaluation_witness :
  fst (Internal.evaluateCondition (host := example_host) older_than_18 two_answers)
  = Returned false
  /\ fst (Internal.evaluateTransition (host := example_host)
            (Transition.mk ([] ++ older_than_18 :: [bad_pattern]) "B" None) two_answers)
     = Returned false
  /\ fst (Internal.evaluateTransition (host := example_host)
            (Transition.mk [bad_pattern; older_than_18] "B" None) two_answers)
     = Thrown (SyntaxError "(").
Proof.
  assert (Hc : fst (Internal.evaluateCondition (host := example_host)
                      older_than_18 two_answers) = Returned false)
    by (vm_compute; reflexivity).
  split; [exact Hc|]. split; [|vm_compute; reflexivity].
  apply (proj1 (@deciding_condition_ends_evaluation example_host
                  [] [bad_pattern] older_than_18 "B" two_answers));
    [intros p []|exact Hc|discriminate].
Defined.

(** The answer 20 is above 18, hence neither below nor equal to it. *)
Lemma equals_greater_less_exclude_each_other_witness :
  fst (DateAware.evaluateCondition (host := example_host)
         (with_operator GREATER_THAN older_than_18)
         (heap_with "age" (VNum (number_of_Z 20))))
  = Returned true
  /\ fst (DateAware.evaluateCondition (host := example_host)
            (with_operator LESS_THAN older_than_18)
            (heap_with "age" (VNum (number_of_Z 20))))
     = Returned false.
Proof.
  assert (Hgt : fst (DateAware.evaluateCondition (host := example_host)
                       (with_operator GREATER_THAN older_than_18)
                       (heap_with "age" (VNum (number_of_Z 20))))
                = Returned true)
    by (vm_compute; reflexivity).
  split; [exact Hgt|].
  exact (proj1 (proj2 (@equals_greater_less_exclude_each_other example_host
                         older_than_18 (heap_with "age" (VNum (number_of_Z 20))))) Hgt).
Defined.

(** A birth date of noon on 1 January 1970 lies in 1970; the text answer
    "never" to the same condition does not. *)
Lemma between_takes_two_numbers_or_two_dates_witness :
  responses (heap_with "birth" (VDate 6%positive (number_of_Z 43200000)))
    !! Condition.questionId born_in_1970
  = Some (answer "birth" (VDate 6%positive (number_of_Z 43200000)))
  /\ Condition.operator born_in_1970 = BETWEEN
  /\ DateAware.evaluateCondition (host := example_host) born_in_1970
       (heap_with "birth" (VDate 6%positive (number_of_Z 43200000)))
     = (Returned true, heap_with "birth" (VDate 6%positive (number_of_Z 43200000))).
Proof.
  assert (Hsome : responses (heap_with "birth" (VDate 6%positive (number_of_Z 43200000)))
                    !! Condition.questionId born_in_1970
                  = Some (answer "birth" (VDate 6%positive (number_of_Z 43200000))))
    by (vm_compute; reflexivity).
  split; [exact Hsome|]. split; [reflexivity|].
  exact (proj1 (proj2 (@between_takes_two_numbers_or_two_dates example_host
                         born_in_1970 _ _ Hsome eq_refl))
           3%positive 4%positive (S754_zero false) (number_of_Z 31536000000)
           eq_refl eq_refl).
Defined.

(** The condition of the sample quiz is [age > 18], well typed in both
    revisions. *)
Lemma accepted_conditions_are_well_typed_witness :
  In age_condition (conditions_of age_quiz)
  /\ fst (Internal.validateQuiz age_quiz []) = Returned true
  /\ exists (q : string) (op : ConditionOperatorEnum),
       get_prop age_condition "questionId" = VStr q
       /\ get_prop age_condition "operator" = VStr (ConditionOperatorEnum_value op)
       /\ Internal.well_typed
            (Condition.mk q op (get_prop age_condition "value")
               (get_prop age_condition "additionalValue")) = true.
Proof.
  assert (Hin : In age_condition (conditions_of age_quiz)) by (now left).
  assert (Hok : fst (Internal.validateQuiz age_quiz []) = Returned true)
    by (vm_compute; reflexivity).
  split; [exact Hin|]. split; [exact Hok|].
  exact (proj1 (accepted_conditions_are_well_typed age_quiz [] age_condition Hin) Hok).
Defined.

(** The sample quiz is accepted and has the shape. *)
Lemma accepted_quiz_has_the_shape_witness :
  fst (DateAware.validateQuiz age_quiz []) = Returned true /\ quiz_shape age_quiz.
Proof.
  assert (Hok : fst (DateAware.validateQuiz age_quiz []) = Returned true)
    by (vm_compute; reflexivity).
  split; [exact Hok|].
  exact (accepted_quiz_has_the_shape age_quiz [] (or_intror Hok)).
Defined.

(** An [author] property is not looked at. *)
Lemma validateQuiz_ignores_unknown_properties_witness :
  ~ In "author" quiz_keys
  /\ Internal.validateQuiz
       (VObj 10%positive ([("id", VStr "quiz")] ++ ("author", VNum NaN) :: [])%list) []
     = Internal.validateQuiz (VObj 10%positive ([("id", VStr "quiz")] ++ [])%list) [].
Proof.
  assert (Hkey : ~ In "author" quiz_keys).
  { cbn. intros H. repeat (destruct H as [H|H]; [discriminate H|]). exact H. }
  split; [exact Hkey|].
  exact (proj1 (validateQuiz_ignores_unknown_properties "author" (VNum NaN) 10%positive
                  [("id", VStr "quiz")] [] [] Hkey)).
Defined.

(** The text question passes the text guard and no other. *)
Lemma one_type_guard_holds_witness :
  Internal.QuestionSchema name_question = true
  /\ length (List.filter (fun guard => guard name_question) Internal.type_guards) = 1.
Proof.
  assert (Hq : Internal.QuestionSchema name_question = true) by (vm_compute; reflexivity).
  split; [exact Hq|]. exact (one_type_guard_holds name_question Hq).
Defined.

(** A response created for the text question with the defaults. *)
Lemma created_response_conforms_iff_value_does_witness :
  Internal.QuestionSchema name_question = true
  /\ isNaN (clock at_noon) = false
  /\ exists (response_schema value_schema : schema) (response : JsValue) (rt' : Runtime),
       Internal.createQuestionResponseSchema name_question = inl response_schema
       /\ Internal.getValueSchemaForQuestion name_question = inl value_schema
       /\ createResponse name_question (VStr "Ada") VUndefined VUndefined at_noon
          = (Returned response, rt')
       /\ response_schema response = value_schema (VStr "Ada").
Proof.
  assert (Hq : Internal.QuestionSchema name_question = true) by (vm_compute; reflexivity).
  split; [exact Hq|]. split; [reflexivity|].
  exact (created_response_conforms_iff_value_does name_question (VStr "Ada")
           VUndefined VUndefined at_noon Hq eq_refl eq_refl eq_refl).
Defined.

(** A response created for the file question with a File does not conform
    to [QuestionResponseSchema]. *)
Lemma created_response_conforms_unless_file_witness :
  DateAware.QuestionSchema file_question = true
  /\ isNaN (clock at_noon) = false
  /\ exists (response : JsValue) (rt' : Runtime),
       createResponse file_question a_file VUndefined VUndefined at_noon
       = (Returned response, rt')
       /\ DateAware.QuestionResponseSchema response = false.
Proof.
  assert (Hq : DateAware.QuestionSchema file_question = true) by (vm_compute; reflexivity).
  split; [exact Hq|]. split; [reflexivity|].
  destruct (created_response_conforms_unless_file file_question a_file
              VUndefined VUndefined at_noon Hq eq_refl eq_refl eq_refl)
    as (response & rt' & Hc & _ & Hfile & _).
  exists response, rt'. split; [exact Hc|].
  exact (Hfile 42%positive [("name", VStr "cv.pdf")] eq_refl).
Defined.

(** A run state that holds the File answer to the file question. *)
Lemma state_with_a_file_response_is_rejected_witness :
  In ("cv", VObj 60%positive [("questionId", VStr "cv"); ("value", a_file)])
    (own_entries
       (get_prop
          (VObj 61%positive
             [("quizId", VStr "quiz");
              ("responses",
               VObj 62%positive
                 [("cv", VObj 60%positive [("questionId", VStr "cv"); ("value", a_file)])])])
          "responses"))
  /\ DateAware.QuizStateSchema
       (VObj 61%positive
          [("quizId", VStr "quiz");
           ("responses",
            VObj 62%positive
              [("cv", VObj 60%positive [("questionId", VStr "cv"); ("value", a_file)])])])
     = false.
Proof.
  assert (Hin : In ("cv", VObj 60%positive [("questionId", VStr "cv"); ("value", a_file)])
                  (own_entries
                     (get_prop
                        (VObj 61%positive
                           [("quizId", VStr "quiz");
                            ("responses",
                             VObj 62%positive
                               [("cv", VObj 60%positive
                                         [("questionId", VStr "cv"); ("value", a_file)])])])
                        "responses")))
    by (now left).
  split; [exact Hin|].
  exact (state_with_a_file_response_is_rejected _ _ "cv" 42%positive
           [("name", VStr "cv.pdf")] Hin eq_refl).
Defined.

(** With the answers 10 and "Ada", an OR transition whose first condition
    [age > 18] is false reaches the MATCHES on the pattern ["("] and
    throws, whatever follows. *)
Lemma matches_with_invalid_pattern_throws_witness :
  responses two_answers !! Condition.questionId bad_pattern = Some (answer "name" (VStr "Ada"))
  /\ RegExpCompile (Host := example_host) "(" = None
  /\ fst (Internal.evaluateCondition (host := example_host) older_than_18 two_answers)
     = Returned false
  /\ fst (Internal.evaluateTransition (host := example_host)
            (Transition.mk ([older_than_18] ++ bad_pattern :: [likes_tea]) "B" (Some OR))
            two_answers)
     = Thrown (SyntaxError "(").
Proof.
  assert (Hsome : responses two_answers !! Condition.questionId bad_pattern
                  = Some (answer "name" (VStr "Ada")))
    by (vm_compute; reflexivity).
  assert (Hc : fst (Internal.evaluateCondition (host := example_host)
                      older_than_18 two_answers) = Returned false)
    by (vm_compute; reflexivity).
  assert (Hcv : Condition.value bad_pattern <> VUndefined) by discriminate.
  split; [exact Hsome|]. split; [reflexivity|]. split; [exact Hc|].
  apply (proj1 (proj2 (proj2 (@matches_with_invalid_pattern_throws example_host
                                [older_than_18] [likes_tea] bad_pattern "B" two_answers
                                _ "Ada" Hsome eq_refl eq_refl Hcv eq_refl)))).
  intros p [<-|[]]. exact Hc.
Defined.

(** [getValueSchemaForQuestion] on null, and on a text question. *)
Lemma getValueSchemaForQuestion_returns_on_the_ten_types_only_witness :
  Internal.getValueSchemaForQuestion VNull = inr TypeError
  /\ Internal.QuestionSchema name_question = true
  /\ exists s, Internal.getValueSchemaForQuestion name_question = inl s.
Proof.
  assert (Hq : Internal.QuestionSchema name_question = true) by (vm_compute; reflexivity).
  split; [|split; [exact Hq|]].
  - exact (proj1 (getValueSchemaForQuestion_returns_on_the_ten_types_only VNull)
             (or_intror eq_refl)).
  - exact (proj2 (proj2 (getValueSchemaForQuestion_returns_on_the_ten_types_only
                           name_question)) Hq).
Defined.

(** A condition on the age, which nobody answered. *)
Lemma condition_on_absent_key_is_false_witness :
  responses empty_heap !! Condition.questionId (with_operator NOT_EQUALS older_than_18) = None
  /\ inherited (Condition.questionId (with_operator NOT_EQUALS older_than_18)) = false
  /\ Internal.evaluateCondition (host := example_host)
       (with_operator NOT_EQUALS older_than_18) empty_heap
     = (Returned false, empty_heap)
  /\ DateAware.evaluateCondition (host := example_host)
       (with_operator NOT_EQUALS older_than_18) empty_heap
     = (Returned false, empty_heap).
Proof.
  split; [reflexivity|]. split; [reflexivity|].
  apply (@condition_on_absent_key_is_false example_host
           (with_operator NOT_EQUALS older_than_18) empty_heap); reflexivity.
Defined.

(** The answer 20 to a condition on 18: not EQUALS, hence NOT_EQUALS. *)
Lemma not_equals_negates_equals_where_the_read_succeeds_witness :
  fst (read_response (Condition.questionId older_than_18)
         (heap_with "age" (VNum (number_of_Z 20))))
  = Returned (Some (Own (answer "age" (VNum (number_of_Z 20)))))
  /\ Internal.evaluateCondition (host := example_host)
       (with_operator EQUALS older_than_18) (heap_with "age" (VNum (number_of_Z 20)))
     = (Returned false, heap_with "age" (VNum (number_of_Z 20)))
  /\ Internal.evaluateCondition (host := example_host)
       (with_operator NOT_EQUALS older_than_18) (heap_with "age" (VNum (number_of_Z 20)))
     = (Returned true, heap_with "age" (VNum (number_of_Z 20)))
  /\ DateAware.evaluateCondition (host := example_host)
       (with_operator EQUALS older_than_18) (heap_with "age" (VNum (number_of_Z 20)))
     = (Returned false, heap_with "age" (VNum (number_of_Z 20)))
  /\ DateAware.evaluateCondition (host := example_host)
       (with_operator NOT_EQUALS older_than_18) (heap_with "age" (VNum (number_of_Z 20)))
     = (Returned true, heap_with "age" (VNum (number_of_Z 20))).
Proof.
  assert (Hread : fst (read_response (Condition.questionId older_than_18)
                         (heap_with "age" (VNum (number_of_Z 20))))
                  = Returned (Some (Own (answer "age" (VNum (number_of_Z 20))))))
    by (vm_compute; reflexivity).
  split; [exact Hread|].
  exact (proj1 (@not_equals_negates_equals_where_the_read_succeeds example_host
                  older_than_18 (heap_with "age" (VNum (number_of_Z 20)))) _ Hread).
Defined.
